(** * pypaymob: token manager and webhook HMAC authenticator

    A shallow embedding of [paymob/webhook.py], [paymob/cache.py] and
    [paymob/auth_utility.py].  Python strings are modelled as Rocq
    [string]s, read as their UTF-8 byte sequence (so [.encode("utf-8")] is
    the identity); [hmac.new(..., hashlib.sha512).hexdigest()] is modelled
    by an executable HMAC-SHA512 (FIPS 180-4, RFC 2104). *)

From Stdlib Require Import ZArith List String Ascii Bool Lia.
Import ListNotations.
Open Scope string_scope.
Open Scope Z_scope.

(* ------------------------------------------------------------------ *)
(** ** The hashlib/hmac primitive: HMAC-SHA512 over byte lists *)

Module Sha512.
Local Open Scope list_scope.

Definition w64 (x : Z) : Z := Z.land x (Z.ones 64).
Definition add64 (x y : Z) : Z := w64 (x + y).
Definition rotr (n x : Z) : Z := Z.lor (Z.shiftr x n) (w64 (Z.shiftl x (64 - n))).
Definition lnot64 (x : Z) : Z := Z.lxor x (Z.ones 64).

Definition ch (x y z : Z) := Z.lxor (Z.land x y) (Z.land (lnot64 x) z).
Definition maj (x y z : Z) := Z.lxor (Z.lxor (Z.land x y) (Z.land x z)) (Z.land y z).
Definition bsig0 x := Z.lxor (Z.lxor (rotr 28 x) (rotr 34 x)) (rotr 39 x).
Definition bsig1 x := Z.lxor (Z.lxor (rotr 14 x) (rotr 18 x)) (rotr 41 x).
Definition ssig0 x := Z.lxor (Z.lxor (rotr 1 x) (rotr 8 x)) (Z.shiftr x 7).
Definition ssig1 x := Z.lxor (Z.lxor (rotr 19 x) (rotr 61 x)) (Z.shiftr x 6).

Definition round_constants : list Z := [
   0x428A2F98D728AE22; 0x7137449123EF65CD; 0xB5C0FBCFEC4D3B2F; 0xE9B5DBA58189DBBC;
   0x3956C25BF348B538; 0x59F111F1B605D019; 0x923F82A4AF194F9B; 0xAB1C5ED5DA6D8118;
   0xD807AA98A3030242; 0x12835B0145706FBE; 0x243185BE4EE4B28C; 0x550C7DC3D5FFB4E2;
   0x72BE5D74F27B896F; 0x80DEB1FE3B1696B1; 0x9BDC06A725C71235; 0xC19BF174CF692694;
   0xE49B69C19EF14AD2; 0xEFBE4786384F25E3; 0x0FC19DC68B8CD5B5; 0x240CA1CC77AC9C65;
   0x2DE92C6F592B0275; 0x4A7484AA6EA6E483; 0x5CB0A9DCBD41FBD4; 0x76F988DA831153B5;
   0x983E5152EE66DFAB; 0xA831C66D2DB43210; 0xB00327C898FB213F; 0xBF597FC7BEEF0EE4;
   0xC6E00BF33DA88FC2; 0xD5A79147930AA725; 0x06CA6351E003826F; 0x142929670A0E6E70;
   0x27B70A8546D22FFC; 0x2E1B21385C26C926; 0x4D2C6DFC5AC42AED; 0x53380D139D95B3DF;
   0x650A73548BAF63DE; 0x766A0ABB3C77B2A8; 0x81C2C92E47EDAEE6; 0x92722C851482353B;
   0xA2BFE8A14CF10364; 0xA81A664BBC423001; 0xC24B8B70D0F89791; 0xC76C51A30654BE30;
   0xD192E819D6EF5218; 0xD69906245565A910; 0xF40E35855771202A; 0x106AA07032BBD1B8;
   0x19A4C116B8D2D0C8; 0x1E376C085141AB53; 0x2748774CDF8EEB99; 0x34B0BCB5E19B48A8;
   0x391C0CB3C5C95A63; 0x4ED8AA4AE3418ACB; 0x5B9CCA4F7763E373; 0x682E6FF3D6B2B8A3;
   0x748F82EE5DEFB2FC; 0x78A5636F43172F60; 0x84C87814A1F0AB72; 0x8CC702081A6439EC;
   0x90BEFFFA23631E28; 0xA4506CEBDE82BDE9; 0xBEF9A3F7B2C67915; 0xC67178F2E372532B;
   0xCA273ECEEA26619C; 0xD186B8C721C0C207; 0xEADA7DD6CDE0EB1E; 0xF57D4F7FEE6ED178;
   0x06F067AA72176FBA; 0x0A637DC5A2C898A6; 0x113F9804BEF90DAE; 0x1B710B35131C471B;
   0x28DB77F523047D84; 0x32CAAB7B40C72493; 0x3C9EBE0A15C9BEBC; 0x431D67C49C100D4C;
   0x4CC5D4BECB3E42B6; 0x597F299CFC657E2A; 0x5FCB6FAB3AD6FAEC; 0x6C44198C4A475817 ].

Definition initial_hash : list Z :=
  [0x6A09E667F3BCC908; 0xBB67AE8584CAA73B; 0x3C6EF372FE94F82B; 0xA54FF53A5F1D36F1;
   0x510E527FADE682D1; 0x9B05688C2B3E6C1F; 0x1F83D9ABFB41BD6B; 0x5BE0CD19137E2179].

(** Big-endian conversions between bytes and 64-bit words. *)
Fixpoint be_value (bs : list Z) (acc : Z) : Z :=
  match bs with [] => acc | b :: r => be_value r (acc * 256 + b) end.

Fixpoint words_of_bytes (fuel : nat) (bs : list Z) : list Z :=
  match fuel with
  | O => []
  | S f => match bs with
           | [] => []
           | _ => be_value (firstn 8 bs) 0 :: words_of_bytes f (skipn 8 bs)
           end
  end.

Definition bytes_of_word (x : Z) : list Z :=
  map (fun i => Z.land (Z.shiftr x (8 * (7 - Z.of_nat i))) 255) (seq 0 8).

(** Message schedule extension: [W_t] for [t = 16 .. 79], from the last 16
    words, most recent last. *)
Fixpoint schedule (n : nat) (ws : list Z) : list Z :=
  match n with
  | O => ws
  | S n' =>
      let l := List.length ws in
      let wt := add64 (add64 (ssig1 (nth (l - 2)%nat ws 0)) (nth (l - 7)%nat ws 0))
                      (add64 (ssig0 (nth (l - 15)%nat ws 0)) (nth (l - 16)%nat ws 0)) in
      schedule n' (ws ++ [wt])
  end.

Definition compress_round (st : list Z) (kw : Z * Z) : list Z :=
  match st with
  | [a; b; c; d; e; f; g; h] =>
      let t1 := add64 (add64 (add64 h (bsig1 e)) (add64 (ch e f g) (fst kw))) (snd kw) in
      let t2 := add64 (bsig0 a) (maj a b c) in
      [add64 t1 t2; a; b; c; add64 d t1; e; f; g]
  | _ => st
  end.

Definition compress (hs : list Z) (block : list Z) : list Z :=
  let ws := schedule 64 (words_of_bytes 16 block) in
  let st := fold_left compress_round (combine round_constants ws) hs in
  map (fun p => add64 (fst p) (snd p)) (combine hs st).

(** Padding: [0x80], zeros, then the bit length as a 128-bit big-endian
    integer, to a multiple of 128 bytes. *)
Definition pad (msg : list Z) : list Z :=
  let len := Z.of_nat (List.length msg) in
  let zeros := Z.to_nat ((111 - len) mod 128) in
  msg ++ [128] ++ repeat 0 zeros
      ++ map (fun i => Z.land (Z.shiftr (8 * len) (8 * (15 - Z.of_nat i))) 255) (seq 0 16).

Fixpoint hash_blocks (fuel : nat) (hs : list Z) (bs : list Z) : list Z :=
  match fuel with
  | O => hs
  | S f => match bs with
           | [] => hs
           | _ => hash_blocks f (compress hs (firstn 128 bs)) (skipn 128 bs)
           end
  end.

Definition digest (msg : list Z) : list Z :=
  let p := pad msg in
  flat_map bytes_of_word (hash_blocks (List.length p) initial_hash p).

(** HMAC (RFC 2104) with a 128-byte block. *)
Definition hmac (key msg : list Z) : list Z :=
  let k0 := if Nat.ltb 128 (List.length key) then digest key else key in
  let k := k0 ++ repeat 0 (128 - List.length k0)%nat in
  let ipad := map (Z.lxor 0x36) k in
  let opad := map (Z.lxor 0x5C) k in
  digest (opad ++ digest (ipad ++ msg)).

End Sha512.

Definition bytes_of_string (s : string) : list Z :=
  map (fun c => Z.of_nat (nat_of_ascii c)) (list_ascii_of_string s).

Definition hex_digit (n : Z) : ascii :=
  ascii_of_nat (Z.to_nat (if n <? 10 then 48 + n else 87 + n)).

Definition hex_of_bytes (bs : list Z) : string :=
  string_of_list_ascii
    (flat_map (fun b => [hex_digit (Z.shiftr b 4); hex_digit (Z.land b 15)]) bs).

(** [hmac.new(key.encode("utf-8"), msg.encode("utf-8"), hashlib.sha512).hexdigest()] *)
Definition hmac_sha512_hexdigest (key msg : string) : string :=
  hex_of_bytes (Sha512.hmac (bytes_of_string key) (bytes_of_string msg)).

Example sha512_abc :
  hex_of_bytes (Sha512.digest (bytes_of_string "abc")) =
  "ddaf35a193617abacc417349ae20413112e6fa4e89a97ea20a9eeee64b55d39a2192992a274fc1a836ba3c23a3feebbd454d4423643ce80e2a9ac94fa54ca49f".
Proof. vm_compute. reflexivity. Qed.

Example hmac_sha512_fox :
  hmac_sha512_hexdigest "key" "The quick brown fox jumps over the lazy dog" =
  "b42af09057bac1e2d41708e48a902e09b5ff7f12ab428a4fe86653c73dd248fb82f948a549f7b791a5b41915ee4d1ec3935357e4e2317250d0372afa2ebeeb3a".
Proof. vm_compute. reflexivity. Qed.

(* ------------------------------------------------------------------ *)
(** ** Python values, exceptions and a state/exception monad *)

#[local] Set Warnings "-register-all".

(** JSON-decoded payload values.  A [dict] is an association list with
    distinct keys; lookup takes the first binding. *)
Inductive pyval : Type :=
| PNone
| PBool (b : bool)
| PInt (z : Z)
| PStr (s : string)
| PList (xs : list pyval)
| PDict (kv : list (string * pyval)).

Definition pydict := list (string * pyval).

Fixpoint dict_lookup {A : Type} (k : string) (d : list (string * A)) : option A :=
  match d with
  | [] => None
  | (k', v) :: r => if String.eqb k k' then Some v else dict_lookup k r
  end.

(** [d.get(k, dflt)] on a dict. *)
Definition dict_get (d : pydict) (k : string) (dflt : pyval) : pyval :=
  match dict_lookup k d with Some v => v | None => dflt end.

(** Python exception classes met on the modelled paths.  [NonException]
    stands for the [BaseException] subclasses that are not [Exception]s
    ([KeyboardInterrupt], [SystemExit], ...), which [except Exception]
    does not catch. *)
Inductive exc_class : Type :=
| APIException
| ValidationError
| AuthenticationError
| ConfigurationError
| KeyError
| AttributeError
| ValueError
| OtherException (name : string)
| NonException (name : string).

Record pyexc : Type := mk_exc { exc_cls : exc_class; exc_text : string }.

Definition is_Exception (c : exc_class) : bool :=
  match c with NonException _ => false | _ => true end.

Inductive result (A : Type) : Type :=
| Ok (a : A)
| Raise (e : pyexc).
Arguments Ok {A} a.
Arguments Raise {A} e.

(** Computations threading a state [S] and possibly raising. *)
Definition M (S A : Type) : Type := S -> result A * S.

Definition ret {S A : Type} (a : A) : M S A := fun s => (Ok a, s).
Definition raise {S A : Type} (c : exc_class) (msg : string) : M S A :=
  fun s => (Raise (mk_exc c msg), s).
Definition bind {S A B : Type} (m : M S A) (k : A -> M S B) : M S B :=
  fun s => match m s with
           | (Ok a, s') => k a s'
           | (Raise e, s') => (Raise e, s')
           end.
Definition get_state {S : Type} : M S S := fun s => (Ok s, s).
Definition put_state {S : Type} (s : S) : M S unit := fun _ => (Ok tt, s).
Definition modify {S : Type} (f : S -> S) : M S unit := fun s => (Ok tt, f s).

(** [try: m  except Exception as e: h(e)] *)
Definition try_except {S A : Type} (m : M S A) (h : pyexc -> M S A) : M S A :=
  fun s => match m s with
           | (Raise e, s') => if is_Exception (exc_cls e) then h e s' else (Raise e, s')
           | r => r
           end.

(** A value raised or returned as it is. *)
Definition lift_result {S X : Type} (r : result X) : M S X := fun s => (r, s).

Notation "'let*' x ':=' m 'in' k" := (bind m (fun x => k))
  (at level 200, x name, m at level 100, right associativity).

(** [str()] and [repr()] of a value ([repr] of a [str] is quoted; escaping
    of quotes inside strings is not modelled). *)
Fixpoint digits_of (fuel : nat) (n : Z) (acc : string) : string :=
  match fuel with
  | O => acc
  | S f =>
      let acc' := String (ascii_of_nat (48 + Z.to_nat (n mod 10))) acc in
      if n <? 10 then acc' else digits_of f (n / 10) acc'
  end.

Definition z_to_string (z : Z) : string :=
  let fuel := S (Z.to_nat (Z.log2 (Z.abs z))) in
  if z <? 0 then "-" ++ digits_of fuel (- z) "" else digits_of fuel z "".

(** [repr(s)] of a [str]: single quotes, or double quotes when [s] has a
    single quote and no double quote; the chosen quote and the backslash
    are escaped, as are tab, newline, carriage return and the other ASCII
    control characters ([\xNN]).  Bytes of non-ASCII characters are kept
    as they are (Python keeps printable ones). *)
Fixpoint repr_chars (quote : ascii) (s : string) : string :=
  match s with
  | EmptyString => EmptyString
  | String c r =>
      let n := nat_of_ascii c in
      let esc :=
        if Ascii.eqb c quote || Nat.eqb n 92 then String "092"%char (String c EmptyString)
        else if Nat.eqb n 9 then String "092"%char "t"
        else if Nat.eqb n 10 then String "092"%char "n"
        else if Nat.eqb n 13 then String "092"%char "r"
        else if Nat.ltb n 32 || Nat.eqb n 127 then
          String "092"%char (String "x"%char
            (String (hex_digit (Z.of_nat n / 16)) (String (hex_digit (Z.of_nat n mod 16)) EmptyString)))
        else String c EmptyString in
      esc ++ repr_chars quote r
  end.

Fixpoint has_char (c : ascii) (s : string) : bool :=
  match s with
  | EmptyString => false
  | String c' r => Ascii.eqb c c' || has_char c r
  end.

Definition str_repr (s : string) : string :=
  let quote := if has_char "'"%char s && negb (has_char "034"%char s)
               then "034"%char else "'"%char in
  String quote (repr_chars quote s ++ String quote EmptyString).

Fixpoint py_repr (v : pyval) : string :=
  match v with
  | PNone => "None"
  | PBool true => "True"
  | PBool false => "False"
  | PInt z => z_to_string z
  | PStr s => str_repr s
  | PList xs =>
      "[" ++ (fix go (xs : list pyval) : string :=
                match xs with
                | [] => ""
                | [x] => py_repr x
                | x :: r => py_repr x ++ ", " ++ go r
                end) xs ++ "]"
  | PDict kv =>
      "{" ++ (fix go (kv : list (string * pyval)) : string :=
                match kv with
                | [] => ""
                | [(k, x)] => str_repr k ++ ": " ++ py_repr x
                | (k, x) :: r => str_repr k ++ ": " ++ py_repr x ++ ", " ++ go r
                end) kv ++ "}"
  end.

Definition py_str (v : pyval) : string :=
  match v with PStr s => s | _ => py_repr v end.

Definition py_truthy (v : pyval) : bool :=
  match v with
  | PNone => false
  | PBool b => b
  | PInt z => negb (z =? 0)
  | PStr s => negb (String.eqb s "")
  | PList [] | PDict [] => false
  | PList _ | PDict _ => true
  end.

Definition ascii_lower (c : ascii) : ascii :=
  let n := nat_of_ascii c in
  if andb (Nat.leb 65 n) (Nat.leb n 90) then ascii_of_nat (n + 32) else c.

(** [str.lower()] on ASCII strings; bytes of non-ASCII characters are left
    unchanged, where Python also lowercases letters such as U+00C9 or the
    Kelvin sign U+212A. *)
Fixpoint str_lower (s : string) : string :=
  match s with
  | EmptyString => EmptyString
  | String c r => String (ascii_lower c) (str_lower r)
  end.

(** [s.split(".")] *)
Fixpoint split_dot (s : string) : list string :=
  match s with
  | EmptyString => [""]
  | String c r =>
      let parts := split_dot r in
      if Ascii.eqb c "." then "" :: parts
      else match parts with
           | p :: ps => String c p :: ps
           | [] => [String c EmptyString]
           end
  end.

(** ["." in s] *)
Definition has_dot (s : string) : bool :=
  existsb (Ascii.eqb ".") (list_ascii_of_string s).

(** [o.get(k, dflt)] on an arbitrary value: only dicts have [.get]. *)
Definition py_get {S : Type} (o : pyval) (k : string) (dflt : pyval) : M S pyval :=
  match o with
  | PDict kv => ret (dict_get kv k dflt)
  | _ => raise AttributeError "object has no attribute 'get'"
  end.

(** [d[k]] on a dict. *)
Definition py_subscript {S : Type} (d : pydict) (k : string) : M S pyval :=
  match dict_lookup k d with
  | Some v => ret v
  | None => raise KeyError k
  end.

(* ------------------------------------------------------------------ *)
(** ** paymob/webhook.py: PaymobHmacAuth *)

Module Webhook.

(** Observable effects of the authenticator (log output is not modelled):
    reading the configured secret key and computing a keyed digest. *)
Inductive event : Type :=
| EvReadSecretKey
| EvDigest (key msg : string).

Definition W := M (list event).

Definition emit (e : event) : W unit := modify (fun tr => app tr [e]).

(** [PAYMOB_HMAC_SECRET_KEY = ""  # Just a plcaeholder for now] *)
Definition PAYMOB_HMAC_SECRET_KEY : string := "".

Definition transaction_fields : list string :=
  ["amount_cents"; "created_at"; "currency"; "error_occured";
   "has_parent_transaction"; "id"; "integration_id"; "is_3d_secure";
   "is_auth"; "is_capture"; "is_refunded"; "is_standalone_payment";
   "is_voided"; "order.id"; "owner"; "pending"; "source_data.pan";
   "source_data.sub_type"; "source_data.type"; "success"].

Definition token_fields : list string :=
  ["card_subtype"; "created_at"; "email"; "id"; "masked_pan";
   "merchant_id"; "order_id"; "token"].

(** The value lookup inside the field loop:
    [callback_data["obj"].get(key1, {}).get(key2, "")] or
    [callback_data["obj"].get(field, "")]. *)
Definition field_value (callback_data : pydict) (field : string) : W pyval :=
  if has_dot field then
    match split_dot field with
    | [key1; key2] =>
        let* obj := py_subscript callback_data "obj" in
        let* inner := py_get obj key1 (PDict []) in
        py_get inner key2 (PStr "")
    | _ => raise ValueError "wrong number of values to unpack"
    end
  else
    let* obj := py_subscript callback_data "obj" in
    py_get obj field (PStr "").

(** The stringification rule of the loop body. *)
Definition render_value (value : pyval) : string :=
  let s := py_str value in
  if String.eqb s "True" || String.eqb s "False" then str_lower s
  else if String.eqb s "None" then "null"
  else s.

Fixpoint render_fields (callback_data : pydict) (fields : list string) : W (list string) :=
  match fields with
  | [] => ret []
  | field :: rest =>
      let* value := field_value callback_data field in
      let* result := render_fields callback_data rest in
      ret (render_value value :: result)
  end.

(** The loop shared verbatim by the transaction and token canonicalizers,
    followed by ["".join(result)]. *)
Definition concatenate_fields (fields : list string) (callback_data : pydict) : W string :=
  let* result := render_fields callback_data fields in
  ret (String.concat "" result).

Definition _concatenate_transaction_callback (callback_data : pydict) : W string :=
  concatenate_fields transaction_fields callback_data.

Definition _concatenate_token_callback (callback_data : pydict) : W string :=
  concatenate_fields token_fields callback_data.

Definition _concatenate_subscription_callback (callback_data : pydict) : W string :=
  let str1 := dict_get callback_data "trigger_type" (PStr "") in
  let* str2 := py_get (dict_get callback_data "subscription_data" (PDict [])) "id" (PStr "") in
  if negb (py_truthy str1) || negb (py_truthy str2) then
    raise ValidationError "Cannot authorize callback: Not a valid subscription callback"
  else ret (py_str str1 ++ "for" ++ py_str str2).

Definition _get_type_of_callback (callback_data : pydict) : pyval :=
  if py_truthy (dict_get callback_data "type" PNone) then dict_get callback_data "type" PNone
  else if py_truthy (dict_get callback_data "subscription_data" PNone) then PStr "subscription"
  else PStr "undefined".

(** [callback_type.lower()]: only strings have [.lower]. *)
Definition py_lower (v : pyval) : W string :=
  match v with
  | PStr s => ret (str_lower s)
  | _ => raise AttributeError "object has no attribute 'lower'"
  end.

Definition _concatenate (callback_data : pydict) : W (string * string) :=
  let* callback_type := py_lower (_get_type_of_callback callback_data) in
  if String.eqb callback_type "subscription" then
    let* c := _concatenate_subscription_callback callback_data in ret (c, callback_type)
  else if String.eqb callback_type "transaction" then
    let* c := _concatenate_transaction_callback callback_data in ret (c, callback_type)
  else if String.eqb callback_type "token" then
    let* c := _concatenate_token_callback callback_data in ret (c, callback_type)
  else if String.eqb callback_type "undefined" then ret ("", callback_type)
  else ret ("", "undefined").

(** [_get_hmac_sk], reading the module-level secret [sk]. *)
Definition _get_hmac_sk (sk : string) : W string :=
  let* _ := emit EvReadSecretKey in
  if String.eqb sk "" then raise APIException "Paymob HMAC secret key not configured"
  else ret sk.

(** [hmac.new(key.encode('utf-8'), msg.encode('utf-8'), hashlib.sha512).hexdigest()].
    A string here is its UTF-8 bytes, so the encoding is the identity; a
    Python [str] holding a lone surrogate, whose [encode] raises
    [UnicodeEncodeError], has no counterpart. *)
Definition hmac_new_hexdigest (key msg : string) : W string :=
  let* _ := emit (EvDigest key msg) in
  ret (hmac_sha512_hexdigest key msg).

(** The presented signature: a truthy body [hmac] wins over the query one;
    [query_params.get("hmac", None) if query_params else None]. *)
Definition presented_hmac (callback_data : pydict) (query_params : option pydict) : pyval :=
  let from_query :=
    match query_params with
    | Some ((_ :: _) as q) => dict_get q "hmac" PNone
    | _ => PNone
    end in
  if py_truthy (dict_get callback_data "hmac" PNone) then dict_get callback_data "hmac" PNone
  else from_query.

(** [req_hmac != calculated_hmac.hexdigest()] *)
Definition py_ne_str (v : pyval) (s : string) : bool :=
  match v with PStr s' => negb (String.eqb s' s) | _ => true end.

(** [authorize_hmac] with the module's secret key passed as [sk];
    [None] is Python's [None] return. *)
Definition authorize_hmac_with (sk : string) (callback_data : pydict)
    (query_params : option pydict) (req_ip : string) : W (option string) :=
  let req_hmac := presented_hmac callback_data query_params in
  if negb (py_truthy req_hmac) then ret None
  else
    let* hmac_sk := _get_hmac_sk sk in
    let* out := _concatenate callback_data in
    let '(concatenated_string, res_type) := out in
    if String.eqb concatenated_string "" || String.eqb res_type "undefined" then ret None
    else
      let* calculated := hmac_new_hexdigest hmac_sk concatenated_string in
      if py_ne_str req_hmac calculated then ret None
      else ret (Some res_type).

Definition authorize_hmac (callback_data : pydict) (query_params : option pydict)
    (req_ip : string) : W (option string) :=
  authorize_hmac_with PAYMOB_HMAC_SECRET_KEY callback_data query_params req_ip.

(** Running from an empty trace. *)
Definition run {A : Type} (m : W A) : result A * list event := m [].

End Webhook.


(* ------------------------------------------------------------------ *)
(** ** Field paths below [obj]

    [obj_field] is the value the field loop of the transaction and token
    canonicalizers obtains for [field] once [callback_data["obj"]] is the
    dict [okv]; [path_absent] and [path_null] say, on the path of a field,
    that a segment is missing, or that the leaf is present and [None]. *)

Module FieldPaths.
Import Webhook.

Definition obj_field (okv : pydict) (field : string) : result pyval :=
  if has_dot field then
    match split_dot field with
    | [key1; key2] =>
        match dict_get okv key1 (PDict []) with
        | PDict ikv => Ok (dict_get ikv key2 (PStr ""))
        | _ => Raise (mk_exc AttributeError "object has no attribute 'get'")
        end
    | _ => Raise (mk_exc ValueError "wrong number of values to unpack")
    end
  else Ok (dict_get okv field (PStr "")).

Definition path_absent (okv : pydict) (field : string) : Prop :=
  if has_dot field then
    match split_dot field with
    | [key1; key2] =>
        dict_lookup key1 okv = None \/
        exists ikv, dict_lookup key1 okv = Some (PDict ikv) /\ dict_lookup key2 ikv = None
    | _ => False
    end
  else dict_lookup field okv = None.

Definition path_null (okv : pydict) (field : string) : Prop :=
  if has_dot field then
    match split_dot field with
    | [key1; key2] =>
        exists ikv, dict_lookup key1 okv = Some (PDict ikv) /\ dict_lookup key2 ikv = Some PNone
    | _ => False
    end
  else dict_lookup field okv = Some PNone.

End FieldPaths.


(* ------------------------------------------------------------------ *)
(** ** paymob/cache.py and paymob/auth_utility.py: PaymobAuth *)

Module Auth.

Inductive level : Type := Debug | Info | Warning | Error.

(** The [CacheBackend] protocol.  [now] is the value [time.time()] reads
    during the call (integral seconds). *)
Class CacheBackend (B : Type) := {
  cache_get : string -> Z -> B -> result (option string) * B;
  cache_set : string -> string -> Z -> Z -> B -> result unit * B;
  cache_delete : string -> B -> result unit * B
}.

(** [MemoryCache._cache: dict[str, tuple[str, float]]] *)
Definition mem_store : Type := list (string * (string * Z)).

(** [del d[k]] / [d.pop(k, None)]; a dict has one binding per key, all
    bindings of [k] are dropped. *)
Fixpoint assoc_remove {A : Type} (k : string) (l : list (string * A)) : list (string * A) :=
  match l with
  | [] => []
  | (k', v) :: r => if String.eqb k k' then assoc_remove k r else (k', v) :: assoc_remove k r
  end.

(** [d[k] = v] *)
Fixpoint assoc_set {A : Type} (k : string) (v : A) (l : list (string * A)) : list (string * A) :=
  match l with
  | [] => [(k, v)]
  | (k', v') :: r => if String.eqb k k' then (k, v) :: r else (k', v') :: assoc_set k v r
  end.

Definition MemoryCache_get (key : string) (now : Z) (c : mem_store)
    : result (option string) * mem_store :=
  match dict_lookup key c with
  | None => (Ok None, c)
  | Some (value, expires_at) =>
      if expires_at <? now then (Ok None, assoc_remove key c)
      else (Ok (Some value), c)
  end.

Definition MemoryCache_set (key value : string) (ttl now : Z) (c : mem_store)
    : result unit * mem_store :=
  (Ok tt, assoc_set key (value, now + ttl) c).

Definition MemoryCache_delete (key : string) (c : mem_store) : result unit * mem_store :=
  (Ok tt, assoc_remove key c).

#[export] Instance MemoryCache : CacheBackend mem_store := {|
  cache_get := MemoryCache_get;
  cache_set := MemoryCache_set;
  cache_delete := MemoryCache_delete
|}.

Record PaymobConfig : Type := mk_config { api_key : string; base_url : string }.

(** A [PaymobAuth] instance, together with what it sends to the transport
    (url and api key of each token request) and what it logs. *)
Record state (B : Type) : Type := mk_state {
  config : PaymobConfig;
  cache_backend : B;
  token_ttl : Z;
  _refresh_attempts : Z;
  _last_refresh_hour : Z;
  transport_log : list (string * string);
  logs : list (level * string)
}.
Arguments mk_state {B}.
Arguments config {B}.
Arguments cache_backend {B}.
Arguments token_ttl {B}.
Arguments _refresh_attempts {B}.
Arguments _last_refresh_hour {B}.
Arguments transport_log {B}.
Arguments logs {B}.

(** [PaymobAuth.__init__] with a given backend. *)
Definition PaymobAuth_init {B : Type} (cfg : PaymobConfig) (backend : B) (ttl : Z) : state B :=
  mk_state cfg backend ttl 0 (-1) [] [].

Definition default_token_ttl : Z := 55 * 60.

Definition CACHE_KEY : string := "paymob:auth_token".

(** What [connection_pool.post(...)], [raise_for_status()] and [json()]
    produce: an exception, or the response's ["token"] field. *)
Inductive transport_outcome : Type :=
| TRaise (e : pyexc)
| TResponse (token : option string).

Section PaymobAuth.
Context {B : Type} `{CacheBackend B}.

Definition A := M (state B).

Definition set_backend (b : B) (st : state B) : state B :=
  mk_state (config st) b (token_ttl st) (_refresh_attempts st) (_last_refresh_hour st)
    (transport_log st) (logs st).

Definition set_counter (attempts hour : Z) (st : state B) : state B :=
  mk_state (config st) (cache_backend st) (token_ttl st) attempts hour
    (transport_log st) (logs st).

Definition add_transport_call (call : string * string) (st : state B) : state B :=
  mk_state (config st) (cache_backend st) (token_ttl st) (_refresh_attempts st)
    (_last_refresh_hour st) (app (transport_log st) [call]) (logs st).

Definition add_log (entry : level * string) (st : state B) : state B :=
  mk_state (config st) (cache_backend st) (token_ttl st) (_refresh_attempts st)
    (_last_refresh_hour st) (transport_log st) (app (logs st) [entry]).

Definition log (lvl : level) (msg : string) : A unit := modify (add_log (lvl, msg)).

Definition on_backend {R : Type} (op : B -> result R * B) : A R :=
  fun st => let '(r, b') := op (cache_backend st) in (r, set_backend b' st).

Definition post_token_request (resp : transport_outcome) : A string :=
  let* st := get_state in
  let* _ := modify (add_transport_call
                      (base_url (config st) ++ "/api/auth/tokens", api_key (config st))) in
  match resp with
  | TRaise e => fun s => (Raise e, s)
  | TResponse token =>
      match token with
      | Some t =>
          if String.eqb t "" then raise AuthenticationError "No token received from Paymob API"
          else
            let* _ := log Info "Successfully obtained new Paymob authentication token" in
            ret t
      | None => raise AuthenticationError "No token received from Paymob API"
      end
  end.

Definition _request_token (resp : transport_outcome) : A string :=
  try_except (post_token_request resp)
    (fun e =>
       let* _ := log Error ("Failed to request authentication token: " ++ exc_text e) in
       raise AuthenticationError ("Token request failed: " ++ exc_text e)).

Definition _get_cached_token (now : Z) : A (option string) :=
  try_except (on_backend (cache_get CACHE_KEY now))
    (fun e => let* _ := log Warning ("Failed to get cached token: " ++ exc_text e) in ret None).

Definition _cache_token (token : string) (now : Z) : A unit :=
  try_except
    (let* st := get_state in
     let* _ := on_backend (cache_set CACHE_KEY token (token_ttl st) now) in
     log Debug "Token cached successfully")
    (fun e => log Warning ("Failed to cache token: " ++ exc_text e)).

Definition _track_refresh_attempts (now : Z) : A unit :=
  let current_hour := now / 3600 in
  let* st := get_state in
  let st1 := if negb (current_hour =? _last_refresh_hour st)
             then set_counter 0 current_hour st else st in
  let st2 := set_counter (_refresh_attempts st1 + 1) (_last_refresh_hour st1) st1 in
  let* _ := put_state st2 in
  if 3 <? _refresh_attempts st2 then
    log Warning ("High token refresh rate: " ++ z_to_string (_refresh_attempts st2)
                 ++ " times this hour")
  else ret tt.

Definition get_token (force_refresh : bool) (now : Z) (resp : transport_outcome) : A string :=
  let* hit :=
    if force_refresh then ret None
    else
      let* cached_token := _get_cached_token now in
      match cached_token with
      | Some t =>
          if String.eqb t "" then ret None
          else let* _ := log Debug "Using cached authentication token" in ret (Some t)
      | None => ret None
      end in
  match hit with
  | Some t => ret t
  | None =>
      let* _ := _track_refresh_attempts now in
      let* _ := log Info "Requesting new authentication token" in
      let* token := _request_token resp in
      let* _ := _cache_token token now in
      ret token
  end.

Definition invalidate_token : A unit :=
  try_except
    (let* _ := on_backend (cache_delete CACHE_KEY) in
     log Info "Authentication token invalidated")
    (fun e => log Warning ("Failed to invalidate token: " ++ exc_text e)).

End PaymobAuth.

End Auth.


(* ------------------------------------------------------------------ *)
(** ** Observations on the token manager *)

Module AuthObs.
Import Auth.

Section Obs.
Context {B : Type} `{CacheBackend B}.

(** What a [PaymobAuth] exposes besides its logs and refresh counter. *)
Definition obs (st : state B) : PaymobConfig * B * Z * list (string * string) :=
  (config st, cache_backend st, token_ttl st, transport_log st).

(** The token request sent for a state. *)
Definition token_request (st : state B) : string * string :=
  (base_url (config st) ++ "/api/auth/tokens", api_key (config st)).

(** Backend operations raise only [Exception]s. *)
Definition backend_raises_Exceptions : Prop :=
  (forall k n b e b', cache_get k n b = (Raise e, b') -> is_Exception (exc_cls e) = true) /\
  (forall k v t n b e b', cache_set k v t n b = (Raise e, b') -> is_Exception (exc_cls e) = true) /\
  (forall k b e b', cache_delete k b = (Raise e, b') -> is_Exception (exc_cls e) = true).

End Obs.

Definition transport_raises_Exception (resp : transport_outcome) : Prop :=
  match resp with TRaise e => is_Exception (exc_cls e) = true | TResponse _ => True end.

Definition request_succeeds (resp : transport_outcome) : Prop :=
  exists t, resp = TResponse (Some t) /\ t <> "".

(** The [AuthenticationError] text of a failed token request. *)
Definition request_failure_text (resp : transport_outcome) (msg : string) : Prop :=
  match resp with
  | TRaise e => msg = "Token request failed: " ++ exc_text e
  | TResponse (Some t) => t = "" /\ msg = "Token request failed: No token received from Paymob API"
  | TResponse None => msg = "Token request failed: No token received from Paymob API"
  end.

(** The refetch tail of [get_token], run when no cached token was used. *)
Definition refetch {B : Type} `{CacheBackend B} (now : Z) (resp : transport_outcome)
    : A string :=
  let* _ := _track_refresh_attempts now in
  let* _ := log Info "Requesting new authentication token" in
  let* token := _request_token resp in
  let* _ := _cache_token token now in
  ret token.

(** [int(time.time() // 3600)] *)
Definition hour_bucket (now : Z) : Z := now / 3600.

(** What [_track_refresh_attempts] logs once the counter reads [n]. *)
Definition warning_for (n : Z) : list (level * string) :=
  if 3 <? n then [(Warning, "High token refresh rate: " ++ z_to_string n ++ " times this hour")]
  else [].

(** A sequence of tracked refreshes at the given clock readings. *)
Definition run_tracks {B : Type} `{CacheBackend B} (ts : list Z) (st : state B) : state B :=
  fold_left (fun st t => snd (_track_refresh_attempts t st)) ts st.

Definition config0 : PaymobConfig := mk_config "KEY" "https://accept.paymob.com".

(** A fresh [PaymobAuth] over a [MemoryCache] still holding a token that
    expired at [t = 100]. *)
Definition auth_expired : state mem_store :=
  PaymobAuth_init config0
    [(CACHE_KEY, ("old", 100))] default_token_ttl.








End AuthObs.

(* ------------------------------------------------------------------ *)
(** ** paymob/cache.py: [MemoryCache.clear] and [RedisCache] *)

Module Cache.
Import Auth.

(** [MemoryCache.clear]: [self._cache.clear()] *)
Definition MemoryCache_clear (c : mem_store) : result unit * mem_store := (Ok tt, []).

(** The part of a Redis client that [RedisCache] calls: [get] answers bytes
    or [None], [setex] and [delete] write; each may raise. *)
Record redis_client (R : Type) : Type := mk_redis_client {
  rc_get : string -> M R (option (list Z));
  rc_setex : string -> Z -> string -> M R unit;
  rc_delete : string -> M R unit
}.
Arguments rc_get {R}.
Arguments rc_setex {R}.
Arguments rc_delete {R}.

Section RedisCache.
Context {R : Type} (redis_client : redis_client R).
(** [bytes.decode('utf-8')], which raises [UnicodeDecodeError] on bytes that
    are no UTF-8. *)
Variable decode_utf8 : list Z -> result string.

(** [RedisCache.get]; the warning it logs is not modelled. *)
Definition RedisCache_get (key : string) : M R (option string) :=
  try_except
    (let* value := rc_get redis_client key in
     match value with
     | Some ((_ :: _) as b) => let* s := lift_result (decode_utf8 b) in ret (Some s)
     | _ => ret None
     end)
    (fun e => ret None).

(** [RedisCache.set]: [self.redis_client.setex(key, ttl, value)] *)
Definition RedisCache_set (key value : string) (ttl : Z) : M R unit :=
  try_except (rc_setex redis_client key ttl value) (fun e => ret tt).

(** [RedisCache.delete] *)
Definition RedisCache_delete (key : string) : M R unit :=
  try_except (rc_delete redis_client key) (fun e => ret tt).

(** Expiry is left to Redis: the clock reading is not used. *)
Definition RedisCache : CacheBackend R := {|
  cache_get := fun key _ => RedisCache_get key;
  cache_set := fun key value ttl _ => RedisCache_set key value ttl;
  cache_delete := RedisCache_delete
|}.

End RedisCache.

End Cache.

(* ------------------------------------------------------------------ *)
(** ** paymob/config.py: [PaymobConfig] *)

Module Config.

Record paymob_config : Type := mk_paymob_config {
  cfg_api_key : option string;
  cfg_public_key : option string;
  cfg_secret_key : option string;
  cfg_integration_id : option string;
  cfg_base_url : string;
  cfg_hmac_secret_key : option string
}.

(** [not getattr(self, key)] is false for [None] and [""]. *)
Definition opt_truthy (v : option string) : bool :=
  match v with Some s => negb (String.eqb s "") | None => false end.

Fixpoint drop_slashes (l : list ascii) : list ascii :=
  match l with
  | c :: r => if Ascii.eqb c "/" then drop_slashes r else l
  | [] => []
  end.

(** [s.rstrip("/")] *)
Definition rstrip_slash (s : string) : string :=
  string_of_list_ascii (rev (drop_slashes (rev (list_ascii_of_string s)))).

(** [PaymobConfig.validate] *)
Definition validate (c : paymob_config) : result unit :=
  let required := [("api_key", cfg_api_key c); ("secret_key", cfg_secret_key c);
                   ("public_key", cfg_public_key c); ("integration_id", cfg_integration_id c)] in
  let missing := map fst (filter (fun kv => negb (opt_truthy (snd kv))) required) in
  match missing with
  | _ :: _ => Raise (mk_exc ConfigurationError
                       ("Missing required config: " ++ String.concat ", " missing))
  | [] =>
      if String.prefix "https://" (cfg_base_url c) then Ok tt
      else Raise (mk_exc ConfigurationError "base_url must start with https://")
  end.

(** [PaymobConfig.__init__]: store the fields, strip trailing slashes from
    [base_url], then [self.validate()]. *)
Definition PaymobConfig_new (api_key public_key secret_key integration_id : option string)
    (base_url : string) (hmac_secret_key : option string) : result paymob_config :=
  let c := mk_paymob_config api_key public_key secret_key integration_id
             (rstrip_slash base_url) hmac_secret_key in
  match validate c with
  | Ok _ => Ok c
  | Raise e => Raise e
  end.

End Config.

(* ------------------------------------------------------------------ *)
(** ** paymob/connection.py and paymob/client.py *)

Module Client.
Import Auth.

(** What [session.request] returns, as far as the callers read it. *)
Record response : Type := mk_response { status_code : Z }.

Definition ascii_upper (c : ascii) : ascii :=
  let n := nat_of_ascii c in
  if andb (Nat.leb 97 n) (Nat.leb n 122) then ascii_of_nat (n - 32) else c.

(** [str.upper()], on ASCII. *)
Fixpoint str_upper (s : string) : string :=
  match s with
  | EmptyString => EmptyString
  | String c r => String (ascii_upper c) (str_upper r)
  end.

(** A [PaymobTransaction]: its [PaymobAuth] (default [MemoryCache]) and the
    requests its connection pool handed to the session (method, url,
    headers, json body). *)
Record cstate : Type := mk_cstate {
  auth : state mem_store;
  session_log : list (string * string * list (string * string) * option pydict)
}.

Definition C := M cstate.

Definition lift_auth {X : Type} (m : M (state mem_store) X) : C X :=
  fun cs => let '(r, a') := m (auth cs) in (r, mk_cstate a' (session_log cs)).

(** [requests.Response.raise_for_status]: an [HTTPError] for 4xx and 5xx
    (its text holds the status only). *)
Definition raise_for_status (r : response) : option pyexc :=
  if (400 <=? status_code r) && (status_code r <? 600)
  then Some (mk_exc (OtherException "HTTPError") (z_to_string (status_code r)))
  else None.

Definition HTTPS_ONLY : string := "Only HTTPS URLs are allowed for security reasons".

Section Client.
(** [session.request(method=..., url=..., headers=..., json=...)] *)
Variable session : string -> string -> list (string * string) -> option pydict -> result response.

(** [ConnectionPool.request]; re-raising a [RequestException] after logging
    it leaves the outcome as the session's. *)
Definition request (method url : string) (headers : list (string * string))
    (json : option pydict) : C response :=
  if negb (String.prefix "https://" url) then raise ValueError HTTPS_ONLY
  else fun cs =>
    let m := str_upper method in
    (session m url headers json,
     mk_cstate (auth cs) (app (session_log cs) [(m, url, headers, json)])).

Definition pool_get (url : string) (headers : list (string * string)) : C response :=
  request "GET" url headers None.

Definition pool_post (url : string) (headers : list (string * string)) (json : option pydict)
    : C response :=
  request "POST" url headers json.

(** One activation of [get_transaction_by_id]; [retry] is its recursive
    call [get_transaction_by_id(transaction_id=..., excuted=True)]. *)
Definition get_transaction_by_id_call (retry : C response) (transaction_id : Z)
    (excuted : bool) (now : Z) (resp : transport_outcome) : C response :=
  let* token := lift_auth (if negb excuted then get_token false now resp
                           else get_token true now resp) in
  let headers := [("Authorization", "Bearer " ++ token)] in
  let* response := pool_get ("/api/acceptance/transactions/" ++ z_to_string transaction_id)
                     headers in
  match raise_for_status response with
  | None => ret response
  | Some e =>
      if (status_code response =? 403) && negb excuted then retry
      else lift_result (Raise e)
  end.

(** One activation of [get_transaction_by_ref]. *)
Definition get_transaction_by_ref_call (retry : C response) (transaction_ref : string)
    (excuted : bool) (now : Z) (resp : transport_outcome) : C response :=
  let* token := lift_auth (if negb excuted then get_token false now resp
                           else get_token true now resp) in
  let headers := [("Authorization", "Bearer " ++ token)] in
  let data := [("merchant_order_id", PStr transaction_ref)] in
  let* response := pool_post "/api/ecommerce/orders/transaction_inquiry" headers (Some data) in
  match raise_for_status response with
  | None => ret response
  | Some e =>
      if (status_code response =? 403) && negb excuted then retry
      else lift_result (Raise e)
  end.

(** The retry activation runs with [excuted=True], whose guard
    [not excuted] is false: its own [retry] is never run. *)
Definition no_retry : C response :=
  raise (OtherException "RecursionError") "maximum recursion depth exceeded".

(** [get_transaction_by_id(transaction_id, excuted)]; [resp] answers its
    token request and [resp_retry] the one of the retry. *)
Definition get_transaction_by_id (transaction_id : Z) (excuted : bool) (now : Z)
    (resp resp_retry : transport_outcome) : C response :=
  get_transaction_by_id_call
    (get_transaction_by_id_call no_retry transaction_id true now resp_retry)
    transaction_id excuted now resp.

Definition get_transaction_by_ref (transaction_ref : string) (excuted : bool) (now : Z)
    (resp resp_retry : transport_outcome) : C response :=
  get_transaction_by_ref_call
    (get_transaction_by_ref_call no_retry transaction_ref true now resp_retry)
    transaction_ref excuted now resp.

End Client.

End Client.

(* ------------------------------------------------------------------ *)
(** ** Webhook payloads and observations *)

Module WebhookObs.
Import Webhook.

(** A computation that leaves the effect trace alone. *)
Definition stateless {A : Type} (m : W A) : Prop :=
  forall s, m s = (fst (m []), s).

Definition sub_good : pydict :=
  [("hmac", PStr (hmac_sha512_hexdigest "k" "suspendedfor7"));
   ("subscription_data", PDict [("id", PInt 7)]);
   ("trigger_type", PStr "suspended")].

Definition sub_flipped : pydict :=
  [("hmac", PStr "5ab394c9356d68667f46b8bf02db57e7a36f4f4a75382d5dff18476045e71dec3abf7d0f2eaa976dc952f00469b689d36c7d33e49833db6421361e73fa140645");
   ("subscription_data", PDict [("id", PInt 7)]);
   ("trigger_type", PStr "suspended")].

(** [sub_flipped] with the first digest character replaced by the
    two-byte UTF-8 character U+00E9. *)
Definition sub_flipped_utf8 : pydict :=
  [("hmac", PStr (String "195"%char (String "169"%char "ab394c9356d68667f46b8bf02db57e7a36f4f4a75382d5dff18476045e71dec3abf7d0f2eaa976dc952f00469b689d36c7d33e49833db6421361e73fa140645")));
   ("subscription_data", PDict [("id", PInt 7)]);
   ("trigger_type", PStr "suspended")].

Definition txn_empty_obj : pydict :=
  [("hmac", PStr (hmac_sha512_hexdigest "k" ""));
   ("type", PStr "transaction");
   ("obj", PDict [])].

Definition txn_example : pydict :=
  [("type", PStr "TRANSACTION");
   ("obj", PDict [("amount_cents", PInt 1000); ("success", PBool true);
                  ("pending", PBool false); ("order", PDict [("id", PInt 42)]);
                  ("source_data", PDict [("pan", PStr "2346"); ("type", PStr "card")])])].

Definition txn_string_true : pydict :=
  [("type", PStr "transaction");
   ("obj", PDict [("amount_cents", PInt 100); ("created_at", PStr "t");
                  ("currency", PStr "EGP"); ("error_occured", PBool false);
                  ("has_parent_transaction", PBool false); ("id", PStr "True");
                  ("integration_id", PInt 7); ("is_3d_secure", PBool true);
                  ("is_auth", PBool false); ("is_capture", PBool false);
                  ("is_refunded", PBool false); ("is_standalone_payment", PBool true);
                  ("is_voided", PBool false); ("order", PDict [("id", PInt 5)]);
                  ("owner", PInt 9); ("pending", PBool false);
                  ("source_data", PDict [("pan", PStr "2346"); ("sub_type", PStr "MasterCard");
                                         ("type", PStr "card")]);
                  ("success", PBool true)])].

Definition tok_example : pydict :=
  [("type", PStr "token"); ("obj", PDict [("card_subtype", PNone); ("token", PStr "tk")])].

Definition subscription_error : pyexc :=
  mk_exc ValidationError "Cannot authorize callback: Not a valid subscription callback".

Definition sub_missing_trigger : pydict :=
  [("hmac", PStr "ab"); ("subscription_data", PDict [("id", PInt 7)])].

(** Every dotted name of a field list is a two-part path ["a.b"]. *)
Definition two_part_paths (fs : list string) : Prop :=
  forall f, In f fs -> has_dot f = true -> exists a b, split_dot f = [a; b].

(** A string of ASCII characters only, where [str_lower] is
    Python's [str.lower()]. *)
Definition ascii_only (s : string) : bool :=
  forallb (fun c => Nat.ltb (nat_of_ascii c) 128) (list_ascii_of_string s).

(** The exceptions of a payload lookup. *)
Definition lookup_error (e : pyexc) : Prop :=
  exc_cls e = KeyError \/ exc_cls e = AttributeError.

End WebhookObs.

(* ================================================================== *)
(** * Properties of the webhook authenticator *)

Module WebhookFacts.
Import Webhook FieldPaths WebhookObs.

(* ------------------------------------------------------------------ *)
(** ** Canonicalization does not touch the effect trace *)

Lemma stateless_ret {A : Type} (a : A) : stateless (ret a).
Proof. intro s; reflexivity. Qed.

Lemma stateless_raise {A : Type} c msg : stateless (A := A) (raise c msg).
Proof. intro s; reflexivity. Qed.

Lemma stateless_bind {A B : Type} (m : W A) (k : A -> W B) :
  stateless m -> (forall a, stateless (k a)) -> stateless (bind m k).
Proof.
  intros Hm Hk s; unfold bind.
  rewrite (Hm s), (Hm []).
  destruct (fst (m [])) as [a|e]; simpl; [apply Hk | reflexivity].
Qed.

Ltac solve_stateless :=
  repeat match goal with
  | |- stateless (ret _) => apply stateless_ret
  | |- stateless (raise _ _) => apply stateless_raise
  | |- stateless (bind _ _) => apply stateless_bind; [|intro]
  | |- stateless (if ?b then _ else _) => destruct b
  | |- stateless (match ?x with _ => _ end) => destruct x
  end.

Lemma py_get_stateless o k d : stateless (py_get o k d).
Proof. unfold py_get; solve_stateless. Qed.

Lemma py_subscript_stateless d k : stateless (py_subscript d k).
Proof. unfold py_subscript; solve_stateless. Qed.

Lemma field_value_stateless d f : stateless (field_value d f).
Proof.
  unfold field_value; solve_stateless;
    auto using py_get_stateless, py_subscript_stateless.
Qed.

Lemma render_fields_stateless d fs : stateless (render_fields d fs).
Proof.
  induction fs as [|f fs IH]; simpl; solve_stateless;
    auto using field_value_stateless.
Qed.

Lemma concatenate_fields_stateless fs d : stateless (concatenate_fields fs d).
Proof. unfold concatenate_fields; solve_stateless; apply render_fields_stateless. Qed.

Lemma concatenate_stateless d : stateless (_concatenate d).
Proof.
  unfold _concatenate, py_lower, _concatenate_subscription_callback,
    _concatenate_transaction_callback, _concatenate_token_callback.
  solve_stateless; auto using concatenate_fields_stateless, py_get_stateless.
Qed.


Lemma bind_ok_stateless {A B : Type} (m : W A) (k : A -> W B) s a :
  stateless m -> fst (run m) = Ok a -> bind m k s = k a s.
Proof.
  intros Hm Ha; unfold bind, run in *; rewrite (Hm s), Ha; reflexivity.
Qed.

Lemma bind_raise_stateless {A B : Type} (m : W A) (k : A -> W B) s e :
  stateless m -> fst (run m) = Raise e -> bind m k s = (Raise e, s).
Proof.
  intros Hm He; unfold bind, run in *; rewrite (Hm s), He; reflexivity.
Qed.

(** The digest is never the empty string, so a correct signature is truthy. *)
Lemma compress_round_nonempty st kw : st <> [] -> Sha512.compress_round st kw <> [].
Proof.
  intro Hst; unfold Sha512.compress_round.
  destruct st as [|a [|b [|c [|d [|e [|f [|g [|h [|i r]]]]]]]]];
    cbv beta iota zeta; congruence.

Qed.

Lemma fold_compress_nonempty l st :
  st <> [] -> fold_left Sha512.compress_round l st <> [].
Proof.
  revert st; induction l as [|kw l IH]; intros st Hst; cbn [fold_left]; auto.
  apply IH, compress_round_nonempty, Hst.
Qed.

Lemma compress_nonempty hs block : hs <> [] -> Sha512.compress hs block <> [].
Proof.
  intro Hhs; unfold Sha512.compress.
  pose proof (fold_compress_nonempty
                (combine Sha512.round_constants
                   (Sha512.schedule 64 (Sha512.words_of_bytes 16 block))) hs Hhs) as Hst.
  destruct hs as [|h hs]; [congruence|].
  destruct (fold_left _ _ _) as [|x xs]; [congruence|].
  cbn [combine map]; discriminate.
Qed.

Lemma hash_blocks_nonempty f hs bs : hs <> [] -> Sha512.hash_blocks f hs bs <> [].
Proof.
  revert hs bs; induction f as [|f IH]; intros hs bs Hhs; cbn [Sha512.hash_blocks]; auto.
  destruct bs; auto.
  apply IH, compress_nonempty, Hhs.
Qed.

Lemma digest_nonempty msg : Sha512.digest msg <> [].
Proof.
  unfold Sha512.digest.
  pose proof (hash_blocks_nonempty (List.length (Sha512.pad msg)) Sha512.initial_hash
                (Sha512.pad msg) ltac:(discriminate)) as H.
  destruct (Sha512.hash_blocks _ _ _) as [|x xs]; [congruence|].
  cbn [flat_map]; unfold Sha512.bytes_of_word; cbn [seq map app]; discriminate.
Qed.

Lemma hexdigest_nonempty key msg : hmac_sha512_hexdigest key msg <> "".
Proof.
  unfold hmac_sha512_hexdigest, Sha512.hmac.
  destruct (Sha512.digest _) as [|b bs] eqn:E; [exfalso; exact (digest_nonempty _ E)|].
  unfold hex_of_bytes; cbn [flat_map app string_of_list_ascii]; discriminate.
Qed.

Lemma presented_truthy_hex key msg :
  py_truthy (PStr (hmac_sha512_hexdigest key msg)) = true.
Proof.
  unfold py_truthy; cbv beta iota.
  rewrite (proj2 (String.eqb_neq _ _) (hexdigest_nonempty key msg)); reflexivity.
Qed.

(** C6: when neither the body nor the query string carries an [hmac]
    entry, [authorize_hmac] returns [None] (no verified type) and its trace
    is empty: the secret key is not read and no digest is computed.  This
    holds for every secret key, configured or not. *)
Theorem authorize_missing_hmac_no_digest (sk : string) (d : pydict)
    (q : option pydict) (ip : string) :
  dict_lookup "hmac" d = None ->
  (forall qd, q = Some qd -> dict_lookup "hmac" qd = None) ->
  run (authorize_hmac_with sk d q ip) = (Ok None, []).
Proof.
  intros Hd Hq.
  assert (Hp : presented_hmac d q = PNone).
  { unfold presented_hmac, dict_get; rewrite Hd.
    destruct q as [[|x qd]|]; try reflexivity.
    rewrite (Hq _ eq_refl); reflexivity. }
  unfold run, authorize_hmac_with; cbv zeta; rewrite Hp; reflexivity.
Qed.

Lemma authorize_missing_hmac_no_digest_witness :
  run (authorize_hmac_with "k" [("type", PStr "transaction")]
         (Some [("id", PInt 3)]) "10.0.0.1") = (Ok None, []).
Proof.
  apply (authorize_missing_hmac_no_digest "k" [("type", PStr "transaction")]
           (Some [("id", PInt 3)]) "10.0.0.1").
  - reflexivity.
  - intros qd Hqd; inversion Hqd; reflexivity.
Defined.

(** C4 (as the code does it): with a signature presented and the secret key
    unset (the shipped [PAYMOB_HMAC_SECRET_KEY = ""]), [authorize_hmac]
    raises [APIException("Paymob HMAC secret key not configured")] right
    after reading the key: no canonicalization, no digest, no [None]. *)
Theorem authorize_unconfigured_key_raises (d : pydict) (q : option pydict) (ip : string) :
  py_truthy (presented_hmac d q) = true ->
  run (authorize_hmac_with "" d q ip) =
    (Raise (mk_exc APIException "Paymob HMAC secret key not configured"),
     [EvReadSecretKey]).
Proof.
  intro Hp; unfold run, authorize_hmac_with; cbv zeta.
  rewrite Hp; reflexivity.
Qed.

Lemma authorize_unconfigured_key_raises_witness :
  run (authorize_hmac [("hmac", PStr "ab"); ("type", PStr "transaction")] None "ip") =
    (Raise (mk_exc APIException "Paymob HMAC secret key not configured"),
     [EvReadSecretKey]).
Proof.
  apply (authorize_unconfigured_key_raises
           [("hmac", PStr "ab"); ("type", PStr "transaction")] None "ip").
  reflexivity.
Defined.

(** C4 as stated fails: the error raised is an [APIException], not a
    [ConfigurationError]. *)
Lemma authorize_unconfigured_key_not_configuration_error :
  fst (run (authorize_hmac [("hmac", PStr "ab"); ("type", PStr "transaction")] None "ip"))
    = Raise (mk_exc APIException "Paymob HMAC secret key not configured") /\
  APIException <> ConfigurationError.
Proof. split; [vm_compute; reflexivity | discriminate]. Qed.


Lemma bind_get_hmac_sk {B : Type} sk (k : string -> W B) s :
  sk <> "" -> bind (_get_hmac_sk sk) k s = k sk (app s [EvReadSecretKey]).
Proof.
  intro Hsk; unfold bind, _get_hmac_sk, emit, modify.
  rewrite (proj2 (String.eqb_neq _ _) Hsk); reflexivity.
Qed.

(** The whole run of [authorize_hmac_with], by the branch it takes. *)
Lemma authorize_run sk d q ip :
  run (authorize_hmac_with sk d q ip) =
    if negb (py_truthy (presented_hmac d q)) then (Ok None, [])
    else if String.eqb sk "" then
      (Raise (mk_exc APIException "Paymob HMAC secret key not configured"), [EvReadSecretKey])
    else
      match fst (run (_concatenate d)) with
      | Raise e => (Raise e, [EvReadSecretKey])
      | Ok (c, t) =>
          if String.eqb c "" || String.eqb t "undefined" then (Ok None, [EvReadSecretKey])
          else ((if py_ne_str (presented_hmac d q) (hmac_sha512_hexdigest sk c)
                 then Ok None else Ok (Some t)),
                [EvReadSecretKey; EvDigest sk c])
      end.
Proof.
  unfold run at 1, authorize_hmac_with; cbv zeta.
  destruct (py_truthy (presented_hmac d q)); cbn [negb]; [|reflexivity].
  destruct (String.eqb sk "") eqn:Esk.
  - unfold _get_hmac_sk, emit, modify, bind; rewrite Esk; reflexivity.
  - apply String.eqb_neq in Esk.
    rewrite (bind_get_hmac_sk sk _ _ Esk).
    destruct (fst (run (_concatenate d))) as [[c t]|e] eqn:Ec.
    + rewrite (bind_ok_stateless _ _ _ _ (concatenate_stateless d) Ec); cbv beta iota.
      destruct (String.eqb c "" || String.eqb t "undefined"); [reflexivity|].
      unfold hmac_new_hexdigest, bind, emit, modify, ret; cbv beta iota.
      destruct (py_ne_str _ _); reflexivity.
    + rewrite (bind_raise_stateless _ _ _ _ (concatenate_stateless d) Ec); reflexivity.
Qed.

(** Appending is cancellative: a change inside a string changes it. *)
Lemma list_ascii_append x y :
  list_ascii_of_string (x ++ y) = List.app (list_ascii_of_string x) (list_ascii_of_string y).
Proof. induction x as [|a x IH]; simpl; [reflexivity | rewrite IH; reflexivity]. Qed.

Lemma string_splice_neq pre x x' suf :
  x <> x' -> (pre ++ x' ++ suf)%string <> (pre ++ x ++ suf)%string.
Proof.
  intros Hx E; apply Hx.
  apply (f_equal list_ascii_of_string) in E.
  rewrite !list_ascii_append in E.
  apply List.app_inv_head, List.app_inv_tail in E.
  rewrite <- (string_of_list_ascii_of_string x), <- (string_of_list_ascii_of_string x'), E.
  reflexivity.
Qed.

(** C1 (as amended): with a configured (non-empty) secret key, for every
    payload whose canonicalization succeeds with [(c, t)]:
    - if [c] is non-empty and [t] is not "undefined", a presented signature
      equal to the hex HMAC-SHA512 of [c] makes [authorize_hmac] return
      [t], and any other presented value makes it return [None]; in
      particular, replacing one character of the digest (the bytes [x] of
      its encoding, single- or multi-byte) by another ([x']) gives [None];
    - if [c] is empty or [t] is "undefined", [authorize_hmac] returns
      [None] whatever the signature, a correct one included. *)
Theorem authorize_roundtrip (sk c t : string) (d : pydict) (q : option pydict) (ip : string) :
  sk <> "" -> fst (run (_concatenate d)) = Ok (c, t) ->
  (c <> "" -> t <> "undefined" ->
     (presented_hmac d q = PStr (hmac_sha512_hexdigest sk c) ->
        fst (run (authorize_hmac_with sk d q ip)) = Ok (Some t)) /\
     (presented_hmac d q <> PStr (hmac_sha512_hexdigest sk c) ->
        fst (run (authorize_hmac_with sk d q ip)) = Ok None) /\
     (forall pre x x' suf,
        x <> x' ->
        hmac_sha512_hexdigest sk c = (pre ++ x ++ suf)%string ->
        presented_hmac d q = PStr (pre ++ x' ++ suf) ->
        fst (run (authorize_hmac_with sk d q ip)) = Ok None)) /\
  (c = "" \/ t = "undefined" -> fst (run (authorize_hmac_with sk d q ip)) = Ok None).
Proof.
  intros Hsk Hcd.
  assert (Hrun := authorize_run sk d q ip).
  rewrite (proj2 (String.eqb_neq _ _) Hsk), Hcd in Hrun.
  assert (Hne : presented_hmac d q <> PStr (hmac_sha512_hexdigest sk c) ->
                c <> "" -> t <> "undefined" ->
                fst (run (authorize_hmac_with sk d q ip)) = Ok None).
  { intros Hp Hc Ht; rewrite Hrun.
    rewrite (proj2 (String.eqb_neq _ _) Hc), (proj2 (String.eqb_neq _ _) Ht); cbn [orb].
    destruct (py_truthy (presented_hmac d q)); cbn [negb fst]; [|reflexivity].
    destruct (presented_hmac d q) as [| | | p | |]; try reflexivity.
    unfold py_ne_str; rewrite (proj2 (String.eqb_neq _ _) (fun E => Hp (f_equal PStr E))).
    reflexivity. }
  split.
  - intros Hc Ht; split; [|split].
    + intro Hp; rewrite Hrun, Hp, presented_truthy_hex; cbn [negb].
      rewrite (proj2 (String.eqb_neq _ _) Hc), (proj2 (String.eqb_neq _ _) Ht); cbn [orb].
      unfold py_ne_str; rewrite String.eqb_refl; reflexivity.
    + intro Hp; exact (Hne Hp Hc Ht).
    + intros pre x x' suf Hx Hh Hp.
      apply (Hne); [|exact Hc|exact Ht].
      rewrite Hp, Hh; intro E; injection E as E.
      exact (string_splice_neq pre x x' suf Hx E).
  - intro Hct; rewrite Hrun.
    destruct (py_truthy (presented_hmac d q)); cbn [negb fst]; [|reflexivity].
    destruct Hct as [-> | ->]; [reflexivity|].
    rewrite orb_true_r; reflexivity.
Qed.

Lemma authorize_roundtrip_witness :
  fst (run (authorize_hmac_with "k" sub_good None "10.0.0.1")) = Ok (Some "subscription") /\
  fst (run (authorize_hmac_with "k" sub_flipped None "10.0.0.1")) = Ok None /\
  fst (run (authorize_hmac_with "k" sub_flipped_utf8 None "10.0.0.1")) = Ok None /\
  fst (run (authorize_hmac_with "k" txn_empty_obj None "10.0.0.1")) = Ok None.
Proof.
  destruct (authorize_roundtrip "k" "suspendedfor7" "subscription" sub_good None "10.0.0.1"
              ltac:(discriminate) ltac:(vm_compute; reflexivity)) as [P1 _].
  destruct (authorize_roundtrip "k" "suspendedfor7" "subscription" sub_flipped None "10.0.0.1"
              ltac:(discriminate) ltac:(vm_compute; reflexivity)) as [P2 _].
  destruct (authorize_roundtrip "k" "suspendedfor7" "subscription" sub_flipped_utf8 None
              "10.0.0.1" ltac:(discriminate) ltac:(vm_compute; reflexivity)) as [P3 _].
  destruct (authorize_roundtrip "k" "" "transaction" txn_empty_obj None "10.0.0.1"
              ltac:(discriminate) ltac:(vm_compute; reflexivity)) as [_ P4].
  split; [|split; [|split]].
  - apply (proj1 (P1 ltac:(discriminate) ltac:(discriminate))); vm_compute; reflexivity.
  - apply (proj1 (proj2 (P2 ltac:(discriminate) ltac:(discriminate)))); vm_compute; discriminate.
  - apply (proj2 (proj2 (P3 ltac:(discriminate) ltac:(discriminate)))
             "" "4" (String "195"%char (String "169"%char ""))
             "ab394c9356d68667f46b8bf02db57e7a36f4f4a75382d5dff18476045e71dec3abf7d0f2eaa976dc952f00469b689d36c7d33e49833db6421361e73fa140645");
      [discriminate | vm_compute; reflexivity | reflexivity].
  - exact (P4 (or_introl eq_refl)).
Defined.

(** C1 as stated fails: a transaction payload whose [obj] is empty has the
    empty canonical string; its signature is the correct HMAC of that
    string, yet [authorize_hmac] returns [None] instead of "transaction". *)
Lemma authorize_roundtrip_empty_canonical :
  fst (run (_concatenate txn_empty_obj)) = Ok ("", "transaction") /\
  presented_hmac txn_empty_obj None = PStr (hmac_sha512_hexdigest "k" "") /\
  fst (run (authorize_hmac_with "k" txn_empty_obj None "10.0.0.1")) = Ok None.
Proof. vm_compute; repeat split. Qed.

(** Without a top-level [obj], a field loop whose first field has no dot
    raises [KeyError('obj')] at its first iteration. *)
Lemma concatenate_fields_missing_obj f fs d :
  has_dot f = false -> dict_lookup "obj" d = None ->
  fst (run (concatenate_fields (f :: fs) d)) = Raise (mk_exc KeyError "obj").
Proof.
  intros Hf Hobj.
  unfold run, concatenate_fields, render_fields, field_value.
  rewrite Hf; unfold bind, py_subscript; rewrite Hobj; reflexivity.
Qed.

(** C10 (as amended): for every payload with a truthy presented
    signature that is classified as transaction or token and has no
    top-level [obj], canonicalization raises [KeyError('obj')]; with a
    configured secret key [authorize_hmac] raises that [KeyError], with the
    key read as its only effect; with an empty key, and so with the shipped
    one, it raises [APIException] first, before canonicalizing. *)
Theorem authorize_missing_obj_key_error (sk : string) (d : pydict)
    (q : option pydict) (ip ty : string) :
  py_truthy (presented_hmac d q) = true ->
  dict_lookup "obj" d = None ->
  _get_type_of_callback d = PStr ty ->
  str_lower ty = "transaction" \/ str_lower ty = "token" ->
  fst (run (_concatenate d)) = Raise (mk_exc KeyError "obj") /\
  (sk <> "" ->
     run (authorize_hmac_with sk d q ip) = (Raise (mk_exc KeyError "obj"), [EvReadSecretKey])) /\
  (sk = "" ->
     run (authorize_hmac_with sk d q ip) =
       (Raise (mk_exc APIException "Paymob HMAC secret key not configured"), [EvReadSecretKey])) /\
  run (authorize_hmac d q ip) =
    (Raise (mk_exc APIException "Paymob HMAC secret key not configured"), [EvReadSecretKey]).
Proof.
  intros Hp Hobj Hty Hlow.
  assert (Hc : fst (run (_concatenate d)) = Raise (mk_exc KeyError "obj")).
  { unfold run, _concatenate, py_lower; rewrite Hty.
    unfold bind at 1; cbv beta iota.
    destruct Hlow as [Hl|Hl]; rewrite Hl; simpl;
      unfold _concatenate_transaction_callback, _concatenate_token_callback;
      (rewrite (bind_raise_stateless _ _ _ (mk_exc KeyError "obj")
                  (concatenate_fields_stateless _ d));
       [reflexivity | apply concatenate_fields_missing_obj; [reflexivity | exact Hobj]]). }
  assert (Hempty : forall k, k = "" ->
            run (authorize_hmac_with k d q ip) =
              (Raise (mk_exc APIException "Paymob HMAC secret key not configured"),
               [EvReadSecretKey])).
  { intros k ->; rewrite authorize_run, Hp; reflexivity. }
  split; [exact Hc|split; [|split]].
  - intro Hsk; rewrite authorize_run, Hp, (proj2 (String.eqb_neq _ _) Hsk), Hc.
    reflexivity.
  - exact (Hempty sk).
  - exact (Hempty PAYMOB_HMAC_SECRET_KEY eq_refl).
Qed.

Lemma authorize_missing_obj_key_error_witness :
  run (authorize_hmac_with "k" [("hmac", PStr "ab"); ("type", PStr "Token")] None "ip") =
    (Raise (mk_exc KeyError "obj"), [EvReadSecretKey]) /\
  run (authorize_hmac [("hmac", PStr "ab"); ("type", PStr "Token")] None "ip") =
    (Raise (mk_exc APIException "Paymob HMAC secret key not configured"), [EvReadSecretKey]).
Proof.
  destruct (authorize_missing_obj_key_error "k" [("hmac", PStr "ab"); ("type", PStr "Token")]
              None "ip" "Token" eq_refl eq_refl eq_refl (or_intror eq_refl))
    as [_ [P1 [_ P2]]].
  exact (conj (P1 ltac:(discriminate)) P2).
Defined.

(** C10 as stated fails on the shipped module: its secret key is the empty
    placeholder, so a token payload without [obj] raises [APIException]
    before canonicalization is reached, not [KeyError]. *)
Lemma authorize_missing_obj_shipped_key :
  fst (run (authorize_hmac [("hmac", PStr "ab"); ("type", PStr "Token")] None "ip")) =
    Raise (mk_exc APIException "Paymob HMAC secret key not configured").
Proof. vm_compute; reflexivity. Qed.


(** Field lookups once [obj] is a dict. *)
Lemma field_value_obj d okv f s :
  dict_lookup "obj" d = Some (PDict okv) -> field_value d f s = (obj_field okv f, s).
Proof.
  intro Hobj; unfold field_value, obj_field.
  destruct (has_dot f).
  - destruct (split_dot f) as [|k1 [|k2 [|k3 r]]]; try reflexivity.
    unfold bind, py_subscript; rewrite Hobj; cbv beta iota.
    unfold py_get at 1, ret at 1; cbv beta iota.
    destruct (dict_get okv k1 (PDict [])); reflexivity.
  - unfold bind, py_subscript; rewrite Hobj; reflexivity.
Qed.

Lemma render_fields_ok d okv fs (g : string -> pyval) :
  dict_lookup "obj" d = Some (PDict okv) ->
  (forall f, In f fs -> obj_field okv f = Ok (g f)) ->
  fst (run (render_fields d fs)) = Ok (map (fun f => render_value (g f)) fs).
Proof.
  intros Hobj; induction fs as [|f fs IH]; intros Hall; [reflexivity|].
  unfold run; cbn [render_fields].
  unfold bind at 1; rewrite (field_value_obj _ _ _ _ Hobj), (Hall f (or_introl eq_refl)).
  cbv beta iota.
  rewrite (bind_ok_stateless _ _ _ _ (render_fields_stateless d fs)
             (IH (fun h Hh => Hall h (or_intror Hh)))).
  reflexivity.
Qed.

Lemma concatenate_fields_ok d fs pieces :
  fst (run (render_fields d fs)) = Ok pieces ->
  fst (run (concatenate_fields fs d)) = Ok (String.concat "" pieces).
Proof.
  intro H; unfold run at 1, concatenate_fields.
  rewrite (bind_ok_stateless _ _ _ _ (render_fields_stateless d fs) H); reflexivity.
Qed.

Lemma render_fields_nth d okv fs pieces :
  dict_lookup "obj" d = Some (PDict okv) ->
  fst (run (render_fields d fs)) = Ok pieces ->
  forall i f, nth_error fs i = Some f ->
  exists v, obj_field okv f = Ok v /\ nth_error pieces i = Some (render_value v).
Proof.
  intros Hobj; revert pieces; induction fs as [|g fs IH]; intros pieces Hr i f Hi.
  - destruct i; discriminate Hi.
  - unfold run in Hr; cbn [render_fields] in Hr.
    unfold bind at 1 in Hr; rewrite (field_value_obj _ _ _ _ Hobj) in Hr.
    destruct (obj_field okv g) as [v|e] eqn:Hg; [|discriminate Hr].
    cbv beta iota in Hr.
    destruct (fst (run (render_fields d fs))) as [rest|e] eqn:Hrest.
    + rewrite (bind_ok_stateless _ _ _ _ (render_fields_stateless d fs) Hrest) in Hr.
      injection Hr as <-.
      destruct i as [|i]; cbn in Hi |- *.
      * injection Hi as <-; exists v; split; [exact Hg | reflexivity].
      * exact (IH rest eq_refl i f Hi).
    + rewrite (bind_raise_stateless _ _ _ _ (render_fields_stateless d fs) Hrest) in Hr.
      discriminate Hr.
Qed.

Lemma concatenate_dispatch d ty s :
  _get_type_of_callback d = PStr ty ->
  _concatenate d s =
    (if String.eqb (str_lower ty) "subscription" then
       bind (_concatenate_subscription_callback d) (fun c => ret (c, str_lower ty))
     else if String.eqb (str_lower ty) "transaction" then
       bind (concatenate_fields transaction_fields d) (fun c => ret (c, str_lower ty))
     else if String.eqb (str_lower ty) "token" then
       bind (concatenate_fields token_fields d) (fun c => ret (c, str_lower ty))
     else if String.eqb (str_lower ty) "undefined" then ret ("", str_lower ty)
     else ret ("", "undefined")) s.
Proof.
  intro Hty; unfold _concatenate, py_lower; rewrite Hty; reflexivity.
Qed.


(** The stringification rule: a value whose [str()] is "True" or "False"
    (a boolean, or one of those strings) becomes lowercase, a value whose
    [str()] is "None" ([None], or the string "None") becomes "null", any
    other value its [str()]. *)
Lemma render_value_rules :
  render_value (PBool true) = "true" /\ render_value (PBool false) = "false" /\
  render_value PNone = "null" /\
  render_value (PStr "True") = "true" /\ render_value (PStr "False") = "false" /\
  render_value (PStr "None") = "null" /\
  (forall v, py_str v <> "True" -> py_str v <> "False" -> py_str v <> "None" ->
             render_value v = py_str v).
Proof.
  repeat split; try reflexivity.
  intros v H1 H2 H3; unfold render_value.
  rewrite (proj2 (String.eqb_neq _ _) H1), (proj2 (String.eqb_neq _ _) H2),
    (proj2 (String.eqb_neq _ _) H3); reflexivity.
Qed.

Ltac field_ok Hord Hsd :=
  match goal with
  | |- obj_field ?okv ?f = Ok (match obj_field ?okv ?f with Ok v => v | Raise _ => PNone end) =>
      destruct (obj_field okv f) eqn:E; [reflexivity|];
      unfold obj_field in E; cbn [has_dot list_ascii_of_string existsb Ascii.eqb Bool.eqb
                                  split_dot andb orb] in E;
      rewrite ?Hord, ?Hsd in E; discriminate E
  end.

(** C2 (as amended): for a payload classified as transaction whose [obj]
    is a dict, with [order] and [source_data] each absent or a dict, the
    canonical string is the separator-free concatenation, in the fixed
    20-field order, of the rendered field values, an absent field being
    looked up as the empty string; rendering follows [render_value]
    (see [render_value_rules]: booleans and the strings "True"/"False"
    become "true"/"false", [None] and the string "None" become "null",
    everything else its [str()]). *)
Theorem transaction_canonical_string (d : pydict) (ty : string)
    (okv order_kv sd_kv : pydict) :
  _get_type_of_callback d = PStr ty -> str_lower ty = "transaction" ->
  dict_lookup "obj" d = Some (PDict okv) ->
  dict_get okv "order" (PDict []) = PDict order_kv ->
  dict_get okv "source_data" (PDict []) = PDict sd_kv ->
  fst (run (_concatenate d)) =
    Ok (String.concat "" (map render_value
          [dict_get okv "amount_cents" (PStr ""); dict_get okv "created_at" (PStr "");
           dict_get okv "currency" (PStr ""); dict_get okv "error_occured" (PStr "");
           dict_get okv "has_parent_transaction" (PStr ""); dict_get okv "id" (PStr "");
           dict_get okv "integration_id" (PStr ""); dict_get okv "is_3d_secure" (PStr "");
           dict_get okv "is_auth" (PStr ""); dict_get okv "is_capture" (PStr "");
           dict_get okv "is_refunded" (PStr ""); dict_get okv "is_standalone_payment" (PStr "");
           dict_get okv "is_voided" (PStr ""); dict_get order_kv "id" (PStr "");
           dict_get okv "owner" (PStr ""); dict_get okv "pending" (PStr "");
           dict_get sd_kv "pan" (PStr ""); dict_get sd_kv "sub_type" (PStr "");
           dict_get sd_kv "type" (PStr ""); dict_get okv "success" (PStr "")]),
        "transaction").
Proof.
  intros Hty Hl Hobj Hord Hsd.
  unfold run at 1; rewrite (concatenate_dispatch d ty [] Hty), Hl.
  cbn [String.eqb Ascii.eqb Bool.eqb].
  set (g := fun f => match obj_field okv f with Ok v => v | Raise _ => PNone end).
  assert (Hr : fst (run (render_fields d transaction_fields)) =
               Ok (map (fun f => render_value (g f)) transaction_fields)).
  { apply (render_fields_ok d okv); [exact Hobj|].
    intros f Hf; unfold transaction_fields in Hf.
    repeat (destruct Hf as [<- | Hf]; [unfold g; field_ok Hord Hsd|]).
    destruct Hf. }
  rewrite (bind_ok_stateless _ _ _ _ (concatenate_fields_stateless _ d)
             (concatenate_fields_ok _ _ _ Hr)).
  unfold g, obj_field, transaction_fields; cbn [map has_dot list_ascii_of_string existsb
                                                Ascii.eqb Bool.eqb split_dot andb orb].
  rewrite Hord, Hsd; reflexivity.
Qed.


Lemma transaction_canonical_string_witness :
  fst (run (_concatenate txn_example)) = Ok ("100042false2346cardtrue", "transaction").
Proof.
  refine (transaction_canonical_string txn_example "TRANSACTION"
            [("amount_cents", PInt 1000); ("success", PBool true);
             ("pending", PBool false); ("order", PDict [("id", PInt 42)]);
             ("source_data", PDict [("pan", PStr "2346"); ("type", PStr "card")])]
            [("id", PInt 42)] [("pan", PStr "2346"); ("type", PStr "card")]
            _ _ _ _ _); reflexivity.
Defined.

(** C2 as stated fails: all 20 fields are present and [id] is the string
    "True", a value that is not a boolean; its natural string form is
    "True" but the canonical string carries "true". *)
Lemma transaction_string_true_lowercased :
  fst (run (_concatenate txn_string_true)) =
    Ok ("100tEGPfalsefalsetrue7truefalsefalsefalsetruefalse59false2346MasterCardcardtrue",
        "transaction") /\
  "100tEGPfalsefalsetrue7truefalsefalsefalsetruefalse59false2346MasterCardcardtrue"
    <> "100tEGPfalsefalseTrue7truefalsefalsefalsetruefalse59false2346MasterCardcardtrue".
Proof. split; [vm_compute; reflexivity | discriminate]. Qed.

Lemma obj_field_absent okv f : path_absent okv f -> obj_field okv f = Ok (PStr "").
Proof.
  unfold path_absent, obj_field; destruct (has_dot f).
  - destruct (split_dot f) as [|k1 [|k2 [|k3 r]]]; try contradiction.
    intros [H | [ikv [H1 H2]]]; unfold dict_get.
    + rewrite H; reflexivity.
    + rewrite H1, H2; reflexivity.
  - intro H; unfold dict_get; rewrite H; reflexivity.
Qed.

Lemma obj_field_null okv f : path_null okv f -> obj_field okv f = Ok PNone.
Proof.
  unfold path_null, obj_field; destruct (has_dot f).
  - destruct (split_dot f) as [|k1 [|k2 [|k3 r]]]; try contradiction.
    intros [ikv [H1 H2]]; unfold dict_get; rewrite H1, H2; reflexivity.
  - intro H; unfold dict_get; rewrite H; reflexivity.
Qed.

(** C3 (as amended): for a payload classified as transaction or token
    whose [obj] is a dict, when the field loop succeeds with pieces
    [pieces], the canonical string is their concatenation, and the piece
    of a field is the empty string when a segment of its path is missing
    and "null" when the field is present with value [None]. *)
Theorem canonical_absent_and_null (d : pydict) (ty : string) (fields : list string)
    (okv : pydict) (pieces : list string) :
  _get_type_of_callback d = PStr ty ->
  (str_lower ty = "transaction" /\ fields = transaction_fields) \/
  (str_lower ty = "token" /\ fields = token_fields) ->
  dict_lookup "obj" d = Some (PDict okv) ->
  fst (run (render_fields d fields)) = Ok pieces ->
  fst (run (_concatenate d)) = Ok (String.concat "" pieces, str_lower ty) /\
  (forall i f, nth_error fields i = Some f ->
     (path_absent okv f -> nth_error pieces i = Some "") /\
     (path_null okv f -> nth_error pieces i = Some "null")).
Proof.
  intros Hty Hsel Hobj Hr; split.
  - unfold run at 1; rewrite (concatenate_dispatch d ty [] Hty).
    destruct Hsel as [[Hl ->] | [Hl ->]]; rewrite Hl; cbn [String.eqb Ascii.eqb Bool.eqb];
      rewrite (bind_ok_stateless _ _ _ _ (concatenate_fields_stateless _ d)
                 (concatenate_fields_ok _ _ _ Hr)); reflexivity.
  - intros i f Hi.
    destruct (render_fields_nth d okv fields pieces Hobj Hr i f Hi) as [v [Hv Hp]].
    split; intro Hpath.
    + rewrite (obj_field_absent okv f Hpath) in Hv; injection Hv as <-; exact Hp.
    + rewrite (obj_field_null okv f Hpath) in Hv; injection Hv as <-; exact Hp.
Qed.

Lemma canonical_absent_and_null_witness :
  fst (run (_concatenate tok_example)) = Ok ("nulltk", "token") /\
  (forall i f, nth_error token_fields i = Some f ->
     (path_absent [("card_subtype", PNone); ("token", PStr "tk")] f ->
        nth_error ["null"; ""; ""; ""; ""; ""; ""; "tk"] i = Some "") /\
     (path_null [("card_subtype", PNone); ("token", PStr "tk")] f ->
        nth_error ["null"; ""; ""; ""; ""; ""; ""; "tk"] i = Some "null")).
Proof.
  refine (canonical_absent_and_null tok_example "token" token_fields
            [("card_subtype", PNone); ("token", PStr "tk")]
            ["null"; ""; ""; ""; ""; ""; ""; "tk"] _ _ _ _).
  - reflexivity.
  - right; split; reflexivity.
  - reflexivity.
  - vm_compute; reflexivity.
Defined.

(** C3 as stated fails: a token payload whose [obj] is empty has all eight
    fields absent, and its canonical string is empty, not eight "null"s. *)
Lemma canonical_absent_not_null :
  fst (run (_concatenate [("type", PStr "token"); ("obj", PDict [])])) = Ok ("", "token") /\
  "" <> "nullnullnullnullnullnullnullnull".
Proof. split; [vm_compute; reflexivity | discriminate]. Qed.


Lemma subscription_stateless d : stateless (_concatenate_subscription_callback d).
Proof.
  unfold _concatenate_subscription_callback; solve_stateless; apply py_get_stateless.
Qed.

Lemma subscription_callback_result d skv :
  dict_get d "subscription_data" (PDict []) = PDict skv ->
  fst (run (_concatenate_subscription_callback d)) =
    (if negb (py_truthy (dict_get d "trigger_type" (PStr "")))
        || negb (py_truthy (dict_get skv "id" (PStr "")))
     then Raise (mk_exc ValidationError
                   "Cannot authorize callback: Not a valid subscription callback")
     else Ok (py_str (dict_get d "trigger_type" (PStr "")) ++ "for"
              ++ py_str (dict_get skv "id" (PStr "")))).
Proof.
  intro Hsd; unfold run, _concatenate_subscription_callback; cbv zeta.
  rewrite Hsd; unfold py_get, bind, ret at 1; cbv beta iota.
  destruct (_ || _); reflexivity.
Qed.

(** C5 (as amended): for a payload classified as subscription whose
    [subscription_data] is a dict or absent: when [trigger_type] or
    [subscription_data.id] is missing (or falsy), canonicalization raises
    [ValidationError], and [authorize_hmac] raises it to its caller once a
    signature is presented and the secret key is configured; when both are
    truthy, the canonical string is [str(trigger_type) + "for" + str(id)];
    without a presented signature [authorize_hmac] returns [None] with no
    effect, so the [ValidationError] of a malformed payload is not raised. *)
Theorem subscription_canonical_or_validation_error (sk : string) (d : pydict)
    (q : option pydict) (ip ty : string) (skv : pydict) :
  _get_type_of_callback d = PStr ty -> str_lower ty = "subscription" ->
  dict_get d "subscription_data" (PDict []) = PDict skv ->
  ((py_truthy (dict_get d "trigger_type" (PStr "")) = false \/
    py_truthy (dict_get skv "id" (PStr "")) = false) ->
     fst (run (_concatenate d)) = Raise subscription_error /\
     (sk <> "" -> py_truthy (presented_hmac d q) = true ->
        run (authorize_hmac_with sk d q ip) = (Raise subscription_error, [EvReadSecretKey]))) /\
  (py_truthy (dict_get d "trigger_type" (PStr "")) = true ->
   py_truthy (dict_get skv "id" (PStr "")) = true ->
     fst (run (_concatenate d)) =
       Ok (py_str (dict_get d "trigger_type" (PStr "")) ++ "for"
           ++ py_str (dict_get skv "id" (PStr "")), "subscription")) /\
  (py_truthy (presented_hmac d q) = false ->
     run (authorize_hmac_with sk d q ip) = (Ok None, [])).
Proof.
  intros Hty Hl Hsd.
  pose proof (subscription_callback_result d skv Hsd) as Hsub.
  assert (Hdisp : forall s, _concatenate d s =
            bind (_concatenate_subscription_callback d) (fun c => ret (c, "subscription")) s).
  { intro s; rewrite (concatenate_dispatch d ty s Hty), Hl; reflexivity. }
  split; [|split].
  - intro Hmiss.
    assert (He : fst (run (_concatenate_subscription_callback d)) = Raise subscription_error).
    { rewrite Hsub; destruct Hmiss as [H|H]; rewrite H; [reflexivity|].
      rewrite orb_true_r; reflexivity. }
    assert (Hc : fst (run (_concatenate d)) = Raise subscription_error).
    { unfold run at 1; rewrite Hdisp.
      rewrite (bind_raise_stateless _ _ _ _ (subscription_stateless d) He); reflexivity. }
    split; [exact Hc|].
    intros Hsk Hp; unfold run, authorize_hmac_with; cbv zeta.
    rewrite Hp; cbn [negb].
    rewrite (bind_get_hmac_sk sk _ _ Hsk).
    rewrite (bind_raise_stateless _ _ _ _ (concatenate_stateless d) Hc).
    reflexivity.
  - intros H1 H2.
    rewrite H1, H2 in Hsub; cbn [negb orb] in Hsub.
    unfold run at 1; rewrite Hdisp.
    rewrite (bind_ok_stateless _ _ _ _ (subscription_stateless d) Hsub); reflexivity.
  - intro Hp; rewrite authorize_run, Hp; reflexivity.
Qed.

Lemma subscription_canonical_or_validation_error_witness :
  run (authorize_hmac_with "k" sub_missing_trigger None "ip") =
    (Raise subscription_error, [EvReadSecretKey]) /\
  fst (run (_concatenate (skipn 1 sub_good))) = Ok ("suspendedfor7", "subscription") /\
  run (authorize_hmac_with "k" (skipn 1 sub_missing_trigger) None "ip") = (Ok None, []).
Proof.
  split; [|split].
  - destruct (subscription_canonical_or_validation_error "k" sub_missing_trigger None "ip"
                "subscription" [("id", PInt 7)] eq_refl eq_refl eq_refl) as [P1 _].
    exact (proj2 (P1 (or_introl eq_refl)) ltac:(discriminate) eq_refl).
  - destruct (subscription_canonical_or_validation_error "k" (skipn 1 sub_good) None "ip"
                "subscription" [("id", PInt 7)] eq_refl eq_refl eq_refl) as [_ [P2 _]].
    exact (P2 eq_refl eq_refl).
  - destruct (subscription_canonical_or_validation_error "k" (skipn 1 sub_missing_trigger)
                None "ip" "subscription" [("id", PInt 7)] eq_refl eq_refl eq_refl)
      as [_ [_ P3]].
    exact (P3 eq_refl).
Defined.

(** C5 as stated fails: a subscription payload missing [trigger_type] and
    carrying no signature is rejected with [None] before canonicalization,
    so no [ValidationError] reaches the caller. *)
Lemma subscription_missing_trigger_unsigned :
  run (authorize_hmac_with "k" [("subscription_data", PDict [("id", PInt 7)])] None "ip") =
    (Ok None, []).
Proof. vm_compute; reflexivity. Qed.

End WebhookFacts.

(* ================================================================== *)
(** * Properties of the token manager *)

Module AuthFacts.
Import Auth AuthObs.

Section Steps.
Context {B : Type} `{CB : CacheBackend B}.

Lemma obs_add_log e (st : state B) : obs (add_log e st) = obs st.
Proof. reflexivity. Qed.

Lemma obs_set_counter a h (st : state B) : obs (set_counter a h st) = obs st.
Proof. reflexivity. Qed.

Lemma get_cached_token_run now (st : state B) :
  _get_cached_token now st =
    let '(r, b') := cache_get CACHE_KEY now (cache_backend st) in
    match r with
    | Ok x => (Ok x, set_backend b' st)
    | Raise e =>
        if is_Exception (exc_cls e)
        then (Ok None, add_log (Warning, "Failed to get cached token: " ++ exc_text e)
                                (set_backend b' st))
        else (Raise e, set_backend b' st)
    end.
Proof.
  unfold _get_cached_token, try_except, on_backend.
  destruct (cache_get CACHE_KEY now (cache_backend st)) as [[x|e] b']; [reflexivity|].
  destruct (is_Exception (exc_cls e)); reflexivity.
Qed.

Lemma track_run now (st : state B) :
  _track_refresh_attempts now st =
    (Ok tt, snd (_track_refresh_attempts now st)) /\
  obs (snd (_track_refresh_attempts now st)) = obs st.
Proof.
  unfold _track_refresh_attempts, bind, get_state, put_state, log, modify, ret.
  destruct (negb _); cbv beta iota; destruct (3 <? _); split; reflexivity.
Qed.

Lemma request_token_run resp (st : state B) :
  let st1 := add_transport_call (token_request st) st in
  _request_token resp st =
    match resp with
    | TRaise e =>
        if is_Exception (exc_cls e)
        then (Raise (mk_exc AuthenticationError ("Token request failed: " ++ exc_text e)),
              add_log (Error, "Failed to request authentication token: " ++ exc_text e) st1)
        else (Raise e, st1)
    | TResponse (Some t) =>
        if String.eqb t "" then
          (Raise (mk_exc AuthenticationError
                    "Token request failed: No token received from Paymob API"),
           add_log (Error, "Failed to request authentication token: No token received from Paymob API") st1)
        else (Ok t, add_log (Info, "Successfully obtained new Paymob authentication token") st1)
    | TResponse None =>
        (Raise (mk_exc AuthenticationError
                  "Token request failed: No token received from Paymob API"),
         add_log (Error, "Failed to request authentication token: No token received from Paymob API") st1)
    end.
Proof.
  cbv zeta; destruct resp as [e|[t|]].
  - unfold _request_token, post_token_request, try_except, bind, get_state, modify.
    destruct (is_Exception (exc_cls e)); reflexivity.
  - unfold _request_token, post_token_request, try_except, bind, get_state, modify.
    destruct (String.eqb t ""); reflexivity.
  - reflexivity.
Qed.

Lemma cache_token_run t now (st : state B) :
  _cache_token t now st =
    let '(r, b') := cache_set CACHE_KEY t (token_ttl st) now (cache_backend st) in
    match r with
    | Ok _ => (Ok tt, add_log (Debug, "Token cached successfully") (set_backend b' st))
    | Raise e =>
        if is_Exception (exc_cls e)
        then (Ok tt, add_log (Warning, "Failed to cache token: " ++ exc_text e) (set_backend b' st))
        else (Raise e, set_backend b' st)
    end.
Proof.
  unfold _cache_token, try_except, bind, get_state, on_backend, log, modify.
  destruct (cache_set _ _ _ _ _) as [[x|e] b']; [reflexivity|].
  destruct (is_Exception (exc_cls e)); reflexivity.
Qed.

Lemma track_fields now (st : state B) :
  config (snd (_track_refresh_attempts now st)) = config st /\
  cache_backend (snd (_track_refresh_attempts now st)) = cache_backend st /\
  token_ttl (snd (_track_refresh_attempts now st)) = token_ttl st /\
  transport_log (snd (_track_refresh_attempts now st)) = transport_log st.
Proof.
  pose proof (proj2 (track_run now st)) as Ho; unfold obs in Ho.
  injection Ho; intros; repeat split; assumption.
Qed.

Lemma get_token_forced now resp (st : state B) :
  get_token true now resp st = refetch now resp st.
Proof. reflexivity. Qed.

Lemma get_token_unforced now resp (st : state B) :
  get_token false now resp st =
    match _get_cached_token now st with
    | (Ok (Some t), st1) =>
        if String.eqb t "" then refetch now resp st1
        else (Ok t, add_log (Debug, "Using cached authentication token") st1)
    | (Ok None, st1) => refetch now resp st1
    | (Raise e, st1) => (Raise e, st1)
    end.
Proof.
  unfold get_token, bind at 1 2; cbv beta iota.
  destruct (_get_cached_token now st) as [[[t|]|e] st1]; [|reflexivity|reflexivity].
  destruct (String.eqb t ""); reflexivity.
Qed.

Lemma refetch_run now resp (st : state B) :
  refetch now resp st =
    match _request_token resp
            (add_log (Info, "Requesting new authentication token")
               (snd (_track_refresh_attempts now st))) with
    | (Ok token, st3) =>
        match _cache_token token now st3 with
        | (Ok _, st4) => (Ok token, st4)
        | (Raise e, st4) => (Raise e, st4)
        end
    | (Raise e, st3) => (Raise e, st3)
    end.
Proof.
  unfold refetch, bind at 1; rewrite (proj1 (track_run now st)); cbv beta iota.
  unfold bind, log, modify.
  destruct (_request_token _ _) as [[token|e] st3]; [|reflexivity].
  destruct (_cache_token token now st3) as [[u|e] st4]; reflexivity.
Qed.

End Steps.




Section Contained.
Context {B : Type} `{CB : CacheBackend B}.
Hypothesis HB : backend_raises_Exceptions.

Lemma refetch_outcome now resp (st : state B) :
  transport_raises_Exception resp ->
  transport_log (snd (refetch now resp st)) = app (transport_log st) [token_request st] /\
  match fst (refetch now resp st) with
  | Ok t => resp = TResponse (Some t) /\ t <> ""
  | Raise e => exc_cls e = AuthenticationError /\ request_failure_text resp (exc_text e)
  end.
Proof.
  intros HT.
  destruct (track_fields now st) as (Hc & Hb & Htt & Htl).
  rewrite refetch_run.
  set (st2 := add_log (Info, "Requesting new authentication token")
                (snd (_track_refresh_attempts now st))).
  assert (Hc2 : config st2 = config st) by exact Hc.
  assert (Htl2 : transport_log st2 = transport_log st) by exact Htl.
  clearbody st2.
  rewrite request_token_run; cbv zeta.
  destruct resp as [e|[t|]].
  - cbn in HT; rewrite HT; cbn; rewrite Htl2; unfold token_request; rewrite Hc2.
    split; [reflexivity|split; reflexivity].
  - destruct (String.eqb t "") eqn:Et.
    + apply String.eqb_eq in Et; subst t; cbn; rewrite Htl2; unfold token_request; rewrite Hc2.
      split; [reflexivity|split; [reflexivity|split; reflexivity]].
    + apply String.eqb_neq in Et.
      rewrite cache_token_run.
      destruct (cache_set CACHE_KEY t (token_ttl _) now (cache_backend _)) as [[u|e] b'] eqn:Es.
      * cbn; rewrite Htl2; unfold token_request; rewrite Hc2; split; [reflexivity|split; auto].
      * rewrite ((proj1 (proj2 HB)) _ _ _ _ _ _ _ Es).
        cbn; rewrite Htl2; unfold token_request; rewrite Hc2; split; [reflexivity|split; auto].
  - cbn; rewrite Htl2; unfold token_request; rewrite Hc2.
    split; [reflexivity|split; reflexivity].
Qed.

Lemma refetch_from_same_request now resp (st st' : state B) :
  config st' = config st -> transport_log st' = transport_log st ->
  transport_raises_Exception resp ->
  transport_log (snd (refetch now resp st')) = app (transport_log st) [token_request st] /\
  match fst (refetch now resp st') with
  | Ok t => resp = TResponse (Some t) /\ t <> ""
  | Raise e => exc_cls e = AuthenticationError /\ request_failure_text resp (exc_text e)
  end.
Proof.
  intros Hc Htl HT.
  destruct (refetch_outcome now resp st' HT) as [H1 H2].
  rewrite <- Htl; unfold token_request; rewrite <- Hc; exact (conj H1 H2).
Qed.

(** Every run of [get_token] either returns without a token request, or
    issues exactly one and its outcome is the request's. *)
Lemma get_token_outcome force now resp (st : state B) :
  transport_raises_Exception resp ->
  (exists t, fst (get_token force now resp st) = Ok t /\
              transport_log (snd (get_token force now resp st)) = transport_log st) \/
   (transport_log (snd (get_token force now resp st)) = app (transport_log st) [token_request st] /\
    match fst (get_token force now resp st) with
    | Ok t => resp = TResponse (Some t) /\ t <> ""
    | Raise e => exc_cls e = AuthenticationError /\ request_failure_text resp (exc_text e)
    end).
Proof.
  intros HT.
  destruct force.
  - right; rewrite get_token_forced; exact (refetch_outcome now resp st HT).
  - rewrite get_token_unforced, get_cached_token_run.
    destruct (cache_get CACHE_KEY now (cache_backend st)) as [[[t|]|e] b'] eqn:Eg.
    + destruct (String.eqb t "").
      * right; apply refetch_from_same_request; auto.
      * left; exists t; split; reflexivity.
    + right; apply refetch_from_same_request; auto.
    + rewrite ((proj1 HB) _ _ _ _ _ Eg).
      right; apply refetch_from_same_request; auto.
Qed.


End Contained.

Lemma lookup_assoc_remove {X : Type} k (l : list (string * X)) :
  dict_lookup k (assoc_remove k l) = None.
Proof.
  induction l as [|[k' v] r IH]; [reflexivity|].
  cbn; destruct (String.eqb k k') eqn:E; [exact IH|].
  cbn; rewrite E; exact IH.
Qed.

Lemma lookup_assoc_set {X : Type} k (v : X) l :
  dict_lookup k (assoc_set k v l) = Some v.
Proof.
  induction l as [|[k' v'] r IH]; cbn.
  - rewrite String.eqb_refl; reflexivity.
  - destruct (String.eqb k k') eqn:E; cbn; [rewrite String.eqb_refl; reflexivity|].
    rewrite E; exact IH.
Qed.

Lemma MemoryCache_get_expired (c : mem_store) key now value exp :
  dict_lookup key c = Some (value, exp) -> exp < now ->
  MemoryCache_get key now c = (Ok None, assoc_remove key c) /\
  dict_lookup key (assoc_remove key c) = None.
Proof.
  intros Hl Hexp; unfold MemoryCache_get; rewrite Hl.
  rewrite (proj2 (Z.ltb_lt _ _) Hexp); split; [reflexivity|apply lookup_assoc_remove].
Qed.

Lemma memory_cache_raises_Exceptions : backend_raises_Exceptions (B := mem_store).
Proof.
  split; [|split]; cbn.
  - intros k n b e b'; unfold MemoryCache_get.
    destruct (dict_lookup k b) as [[v x]|]; [destruct (x <? n)|]; discriminate.
  - intros k v t n b e b'; discriminate.
  - intros k b e b'; discriminate.
Qed.

(** C7: with the in-memory backend, a token under [CACHE_KEY] whose expiry
    has passed is a cache miss for [get_token(False)]: the read evicts the
    entry, exactly one token request goes to the transport (whatever it
    answers), and a token it returns is what [get_token] returns and what
    the cache then holds under [CACHE_KEY] with expiry [now + token_ttl]. *)
Theorem get_token_expired_refetch (st : state mem_store) (now exp : Z) (old : string)
    (resp : transport_outcome) :
  dict_lookup CACHE_KEY (cache_backend st) = Some (old, exp) -> exp < now ->
  MemoryCache_get CACHE_KEY now (cache_backend st)
    = (Ok None, assoc_remove CACHE_KEY (cache_backend st)) /\
  dict_lookup CACHE_KEY (assoc_remove CACHE_KEY (cache_backend st)) = None /\
  transport_log (snd (get_token false now resp st))
    = app (transport_log st) [token_request st] /\
  (forall t, resp = TResponse (Some t) -> t <> "" ->
     fst (get_token false now resp st) = Ok t /\
     cache_backend (snd (get_token false now resp st))
       = assoc_set CACHE_KEY (t, now + token_ttl st) (assoc_remove CACHE_KEY (cache_backend st)) /\
     dict_lookup CACHE_KEY (cache_backend (snd (get_token false now resp st)))
       = Some (t, now + token_ttl st)).
Proof.
  intros Hl Hexp.
  destruct (MemoryCache_get_expired _ _ _ _ _ Hl Hexp) as [Hget Hgone].
  set (st1 := set_backend (assoc_remove CACHE_KEY (cache_backend st)) st).
  assert (Hg : get_token false now resp st = refetch now resp st1).
  { rewrite get_token_unforced, get_cached_token_run; cbn [cache_get MemoryCache].
    rewrite Hget; reflexivity. }
  set (st2 := add_log (Info, "Requesting new authentication token")
                (snd (_track_refresh_attempts now st1))).
  destruct (track_fields now st1) as (Hc & Hb & Htt & Htl).
  assert (Hc2 : config st2 = config st) by exact Hc.
  assert (Hb2 : cache_backend st2 = assoc_remove CACHE_KEY (cache_backend st)) by exact Hb.
  assert (Htt2 : token_ttl st2 = token_ttl st) by exact Htt.
  assert (Htl2 : transport_log st2 = transport_log st) by exact Htl.
  rewrite Hg, refetch_run; fold st2; clearbody st2.
  rewrite request_token_run; cbv zeta.
  split; [exact Hget|split; [exact Hgone|]].
  destruct resp as [e|[t|]].
  - split; [|intros t Ht; discriminate Ht].
    destruct (is_Exception (exc_cls e)); cbn; rewrite Htl2; unfold token_request; rewrite Hc2;
      reflexivity.
  - destruct (String.eqb t "") eqn:Et.
    + split; [|intros t' Ht' Hne; injection Ht' as <-;
               apply String.eqb_eq in Et; contradiction].
      cbn; rewrite Htl2; unfold token_request; rewrite Hc2; reflexivity.
    + rewrite cache_token_run; cbn [cache_set MemoryCache MemoryCache_set].
      cbn; rewrite Hb2, Htt2, Htl2; unfold token_request; rewrite Hc2.
      split; [reflexivity|].
      intros t' Ht' _; injection Ht' as <-.
      split; [reflexivity|split; [reflexivity|apply lookup_assoc_set]].
  - split; [|intros t Ht; discriminate Ht].
    cbn; rewrite Htl2; unfold token_request; rewrite Hc2; reflexivity.
Qed.



(* ------------------------------------------------------------------ *)
(** ** The refresh counter *)

Section Counter.
Context {B : Type} `{CB : CacheBackend B}.

Lemma track_step now (st : state B) :
  fst (_track_refresh_attempts now st) = Ok tt /\
  _last_refresh_hour (snd (_track_refresh_attempts now st)) = now / 3600 /\
  _refresh_attempts (snd (_track_refresh_attempts now st))
    = (if now / 3600 =? _last_refresh_hour st then _refresh_attempts st else 0) + 1 /\
  logs (snd (_track_refresh_attempts now st))
    = app (logs st) (warning_for (_refresh_attempts (snd (_track_refresh_attempts now st)))) /\
  obs (snd (_track_refresh_attempts now st)) = obs st.
Proof.
  split; [rewrite (proj1 (track_run now st)); reflexivity|].
  split; [|split; [|split; [|exact (proj2 (track_run now st))]]];
    unfold _track_refresh_attempts, bind, get_state, put_state, log, modify, ret, warning_for;
    destruct (now / 3600 =? _last_refresh_hour st) eqn:E; cbn [negb].
  - destruct (3 <? _); cbn; symmetry; apply Z.eqb_eq; exact E.
  - destruct (3 <? _); reflexivity.
  - destruct (3 <? _); reflexivity.
  - destruct (3 <? _); reflexivity.
  - cbn; destruct (Z.ltb_spec 3 (_refresh_attempts st + 1)); cbn;
      destruct (Z.ltb_spec 3 (_refresh_attempts st + 1)); try lia;
      [reflexivity|symmetry; apply List.app_nil_r].
  - cbn; symmetry; apply List.app_nil_r.
Qed.

Lemma run_tracks_cons t ts (st : state B) :
  run_tracks (t :: ts) st = run_tracks ts (snd (_track_refresh_attempts t st)).
Proof. reflexivity. Qed.

Lemma count_occ_bucket_pos t ts :
  (1 <= count_occ Z.eq_dec (map hour_bucket (t :: ts)) (hour_bucket t))%nat.
Proof. cbn; destruct (Z.eq_dec (hour_bucket t) (hour_bucket t)) as [_|n]; [lia|contradiction]. Qed.

(** No warning while no bucket, counting what the counter already holds
    for its own bucket, reaches four refreshes. *)
Lemma run_tracks_quiet ts (st : state B) :
  0 <= _refresh_attempts st ->
  (forall h, Z.of_nat (count_occ Z.eq_dec (map hour_bucket ts) h)
             + (if h =? _last_refresh_hour st then _refresh_attempts st else 0) <= 3) ->
  logs (run_tracks ts st) = logs st.
Proof.
  revert st; induction ts as [|t ts IH]; intros st Hpos Hc; [reflexivity|].
  rewrite run_tracks_cons.
  destruct (track_step t st) as (_ & Hl & Ha & Hlogs & _).
  fold (hour_bucket t) in Hl, Ha.
  set (st' := snd (_track_refresh_attempts t st)) in *.
  assert (Hbt := Hc (hour_bucket t)).
  pose proof (count_occ_bucket_pos t ts) as Hpos1.
  assert (Hcons : forall h, count_occ Z.eq_dec (map hour_bucket (t :: ts)) h
                  = ((if Z.eq_dec (hour_bucket t) h then 1 else 0)
                     + count_occ Z.eq_dec (map hour_bucket ts) h)%nat).
  { intro h; cbn; destruct (Z.eq_dec (hour_bucket t) h); reflexivity. }
  assert (Hle : _refresh_attempts st' <= 3).
  { rewrite Ha; rewrite Hcons in Hbt.
    destruct (Z.eq_dec (hour_bucket t) (hour_bucket t)) as [_|n]; [|contradiction].
    destruct (hour_bucket t =? _last_refresh_hour st); lia. }
  rewrite IH.
  - rewrite Hlogs; unfold warning_for.
    replace (3 <? _refresh_attempts st') with false by (symmetry; apply Z.ltb_ge; lia).
    apply List.app_nil_r.
  - rewrite Ha; destruct (_ =? _); lia.
  - intro h; rewrite Hl.
    assert (Hh := Hc h); rewrite Hcons in Hh.
    destruct (Z.eq_dec (hour_bucket t) h) as [<-|n].
    + rewrite Z.eqb_refl, Ha; rewrite Hcons in Hbt.
      destruct (Z.eq_dec (hour_bucket t) (hour_bucket t)) as [_|n]; [|contradiction].
      destruct (hour_bucket t =? _last_refresh_hour st); lia.
    + replace (h =? hour_bucket t) with false by (symmetry; apply Z.eqb_neq; congruence).
      destruct (h =? _last_refresh_hour st); lia.
Qed.

(** [get_token] runs the same on two states that agree on everything but
    the logs and the refresh counter. *)
Ltac obs_eq := unfold obs in *; cbn in *; congruence.

Lemma request_token_agrees resp (st1 st2 : state B) :
  obs st1 = obs st2 ->
  fst (_request_token resp st1) = fst (_request_token resp st2) /\
  obs (snd (_request_token resp st1)) = obs (snd (_request_token resp st2)).
Proof.
  intros Ho; rewrite !request_token_run; cbv zeta.
  assert (Hr : token_request st1 = token_request st2) by (unfold token_request; obs_eq).
  destruct resp as [e|[t|]];
    [destruct (is_Exception (exc_cls e)) | destruct (String.eqb t "") |];
    cbn; rewrite Hr; split; try reflexivity; obs_eq.
Qed.

Lemma cache_token_agrees t now (st1 st2 : state B) :
  obs st1 = obs st2 ->
  fst (_cache_token t now st1) = fst (_cache_token t now st2) /\
  obs (snd (_cache_token t now st1)) = obs (snd (_cache_token t now st2)).
Proof.
  intros Ho; rewrite !cache_token_run.
  assert (Hb : cache_backend st1 = cache_backend st2) by obs_eq.
  assert (Ht : token_ttl st1 = token_ttl st2) by obs_eq.
  rewrite Hb, Ht.
  destruct (cache_set CACHE_KEY t (token_ttl st2) now (cache_backend st2)) as [[u|e] b'];
    [|destruct (is_Exception (exc_cls e))]; split; try reflexivity; obs_eq.
Qed.

Lemma refetch_agrees now resp (st1 st2 : state B) :
  obs st1 = obs st2 ->
  fst (refetch now resp st1) = fst (refetch now resp st2) /\
  obs (snd (refetch now resp st1)) = obs (snd (refetch now resp st2)).
Proof.
  intros Ho; rewrite !refetch_run.
  set (s1 := add_log _ (snd (_track_refresh_attempts now st1))).
  set (s2 := add_log _ (snd (_track_refresh_attempts now st2))).
  assert (Hs : obs s1 = obs s2).
  { unfold s1, s2; rewrite !obs_add_log, (proj2 (track_run now st1)), (proj2 (track_run now st2)).
    exact Ho. }
  clearbody s1 s2.
  destruct (request_token_agrees resp s1 s2 Hs) as [Hr Hso].
  destruct (_request_token resp s1) as [r1 s1'], (_request_token resp s2) as [r2 s2'].
  cbn in Hr, Hso; subst r2.
  destruct r1 as [token|e]; [|split; [reflexivity|exact Hso]].
  destruct (cache_token_agrees token now s1' s2' Hso) as [Hc Hco].
  destruct (_cache_token token now s1') as [c1 t1], (_cache_token token now s2') as [c2 t2].
  cbn in Hc, Hco; subst c2.
  destruct c1; split; first [reflexivity | exact Hco].
Qed.

Lemma get_token_agrees force now resp (st1 st2 : state B) :
  obs st1 = obs st2 ->
  fst (get_token force now resp st1) = fst (get_token force now resp st2) /\
  obs (snd (get_token force now resp st1)) = obs (snd (get_token force now resp st2)).
Proof.
  intros Ho; destruct force.
  - rewrite !get_token_forced; exact (refetch_agrees now resp st1 st2 Ho).
  - rewrite !get_token_unforced, !get_cached_token_run.
    assert (Hb : cache_backend st1 = cache_backend st2) by obs_eq.
    rewrite Hb.
    destruct (cache_get CACHE_KEY now (cache_backend st2)) as [[[t|]|e] b'].
    + destruct (String.eqb t "").
      * apply refetch_agrees; obs_eq.
      * split; [reflexivity|obs_eq].
    + apply refetch_agrees; obs_eq.
    + destruct (is_Exception (exc_cls e)).
      * apply refetch_agrees; obs_eq.
      * split; [reflexivity|obs_eq].
Qed.

Lemma track_first now (st : state B) :
  _refresh_attempts st = 0 ->
  _refresh_attempts (snd (_track_refresh_attempts now st)) = 1 /\
  _last_refresh_hour (snd (_track_refresh_attempts now st)) = hour_bucket now /\
  logs (snd (_track_refresh_attempts now st)) = logs st.
Proof.
  intros H0; destruct (track_step now st) as (_ & Hl & Ha & Hg & _).
  assert (Ha1 : _refresh_attempts (snd (_track_refresh_attempts now st)) = 1)
    by (rewrite Ha, H0; destruct (_ =? _); reflexivity).
  split; [exact Ha1|split; [exact Hl|]].
  rewrite Hg, Ha1; apply List.app_nil_r.
Qed.

Lemma track_same now (st : state B) :
  _last_refresh_hour st = hour_bucket now ->
  _refresh_attempts (snd (_track_refresh_attempts now st)) = _refresh_attempts st + 1 /\
  _last_refresh_hour (snd (_track_refresh_attempts now st)) = hour_bucket now /\
  logs (snd (_track_refresh_attempts now st))
    = app (logs st) (warning_for (_refresh_attempts st + 1)).
Proof.
  intros Hh; destruct (track_step now st) as (_ & Hl & Ha & Hg & _).
  unfold hour_bucket in Hh; rewrite Hh, Z.eqb_refl in Ha.
  split; [exact Ha|split; [exact Hl|]].
  rewrite Hg, Ha; reflexivity.
Qed.

End Counter.

(** C9: a tracked refresh resets the count to zero when the hour bucket
    differs from the stored one and then increments it, stores the current
    bucket, and logs the high-rate warning exactly when the new count
    exceeds 3, never failing; so from a fresh instance four refreshes in one
    bucket log exactly the warning for a count of 4, while refreshes with at
    most three in each bucket log nothing; and the counter has no influence
    on what [get_token] returns, sends or caches. *)
Theorem refresh_rate_counter {B : Type} `{CB : CacheBackend B} :
  (forall now (st : state B),
     fst (_track_refresh_attempts now st) = Ok tt /\
     _last_refresh_hour (snd (_track_refresh_attempts now st)) = hour_bucket now /\
     _refresh_attempts (snd (_track_refresh_attempts now st))
       = (if hour_bucket now =? _last_refresh_hour st then _refresh_attempts st else 0) + 1 /\
     logs (snd (_track_refresh_attempts now st))
       = app (logs st) (warning_for (_refresh_attempts (snd (_track_refresh_attempts now st)))) /\
     obs (snd (_track_refresh_attempts now st)) = obs st) /\
  (forall cfg (b : B) ttl h t1 t2 t3 t4,
     hour_bucket t1 = h -> hour_bucket t2 = h -> hour_bucket t3 = h -> hour_bucket t4 = h ->
     logs (run_tracks [t1; t2; t3; t4] (PaymobAuth_init cfg b ttl))
       = [(Warning, "High token refresh rate: 4 times this hour")]) /\
  (forall cfg (b : B) ttl ts,
     (forall h, (count_occ Z.eq_dec (map hour_bucket ts) h <= 3)%nat) ->
     logs (run_tracks ts (PaymobAuth_init cfg b ttl)) = []) /\
  (forall force now resp (st : state B) attempts hour,
     fst (get_token force now resp (set_counter attempts hour st))
       = fst (get_token force now resp st) /\
     obs (snd (get_token force now resp (set_counter attempts hour st)))
       = obs (snd (get_token force now resp st))).
Proof.
  split; [exact track_step|].
  split.
  { intros cfg b ttl h t1 t2 t3 t4 H1 H2 H3 H4.
    rewrite !run_tracks_cons; cbn [run_tracks fold_left].
    set (s0 := PaymobAuth_init cfg b ttl).
    destruct (track_first t1 s0 eq_refl) as (A1 & L1 & G1).
    set (s1 := snd (_track_refresh_attempts t1 s0)) in *.
    rewrite H1, <- H2 in L1.
    destruct (track_same t2 s1 L1) as (A2 & L2 & G2).
    set (s2 := snd (_track_refresh_attempts t2 s1)) in *.
    rewrite H2, <- H3 in L2.
    destruct (track_same t3 s2 L2) as (A3 & L3 & G3).
    set (s3 := snd (_track_refresh_attempts t3 s2)) in *.
    rewrite H3, <- H4 in L3.
    destruct (track_same t4 s3 L3) as (A4 & L4 & G4).
    rewrite G4, A3, G3, A2, G2, A1, G1; reflexivity. }
  split.
  { intros cfg b ttl ts Hc.
    apply run_tracks_quiet; [cbn; lia|].
    intro h; specialize (Hc h); cbn; destruct (h =? -1); lia. }
  intros force now resp st attempts hour.
  apply get_token_agrees; reflexivity.
Qed.

(** Witnesses at concrete inputs. *)

Lemma get_token_expired_refetch_witness :
  dict_lookup CACHE_KEY (cache_backend auth_expired) = Some ("old", 100) /\ 100 < 200 /\
  (MemoryCache_get CACHE_KEY 200 (cache_backend auth_expired)
     = (Ok None, assoc_remove CACHE_KEY (cache_backend auth_expired)) /\
   dict_lookup CACHE_KEY (assoc_remove CACHE_KEY (cache_backend auth_expired)) = None /\
   transport_log (snd (get_token false 200 (TResponse (Some "new")) auth_expired))
     = app (transport_log auth_expired) [token_request auth_expired] /\
   (forall t, TResponse (Some "new") = TResponse (Some t) -> t <> "" ->
      fst (get_token false 200 (TResponse (Some "new")) auth_expired) = Ok t /\
      cache_backend (snd (get_token false 200 (TResponse (Some "new")) auth_expired))
        = assoc_set CACHE_KEY (t, 200 + token_ttl auth_expired)
            (assoc_remove CACHE_KEY (cache_backend auth_expired)) /\
      dict_lookup CACHE_KEY (cache_backend (snd (get_token false 200 (TResponse (Some "new"))
                                                   auth_expired)))
        = Some (t, 200 + token_ttl auth_expired))).
Proof.
  split; [reflexivity|split; [lia|]].
  apply (get_token_expired_refetch auth_expired 200 100 "old" (TResponse (Some "new")));
    [reflexivity|lia].
Defined.


Lemma refresh_rate_counter_witness :
  (hour_bucket 3590 = 0 /\ hour_bucket 3595 = 0 /\ hour_bucket 3599 = 0 /\ hour_bucket 3598 = 0 /\
   logs (run_tracks [3590; 3595; 3599; 3598] (PaymobAuth_init config0 [] default_token_ttl))
     = [(Warning, "High token refresh rate: 4 times this hour")]) /\
  ((forall h, le (count_occ Z.eq_dec (map hour_bucket [3590; 3595; 3599; 3600]) h) 3) /\
   logs (run_tracks [3590; 3595; 3599; 3600] (PaymobAuth_init config0 [] default_token_ttl)) = []).
Proof.
  assert (Hc : forall h, le (count_occ Z.eq_dec (map hour_bucket [3590; 3595; 3599; 3600]) h) 3).
  { intro h; change (map hour_bucket [3590; 3595; 3599; 3600]) with [0; 0; 0; 1].
    cbn [count_occ]; destruct (Z.eq_dec 0 h), (Z.eq_dec 1 h); lia. }
  split.
  - split; [reflexivity|split; [reflexivity|split; [reflexivity|split; [reflexivity|]]]].
    apply (proj1 (proj2 (@refresh_rate_counter mem_store MemoryCache)) config0 [] default_token_ttl 0);
      reflexivity.
  - split; [exact Hc|].
    apply (proj1 (proj2 (proj2 (@refresh_rate_counter mem_store MemoryCache)))); exact Hc.
Defined.

End AuthFacts.

(* ================================================================== *)
(** * Properties of the cache backends *)

Module CacheFacts.
Import Auth AuthObs AuthFacts Cache.

Lemma lookup_assoc_set_other {X : Type} k k' (v : X) l :
  k <> k' -> dict_lookup k' (assoc_set k v l) = dict_lookup k' l.
Proof.
  intros Hne; induction l as [|[k0 v0] r IH]; cbn.
  - destruct (String.eqb k' k) eqn:E; [apply String.eqb_eq in E; congruence|reflexivity].
  - destruct (String.eqb k k0) eqn:E; cbn.
    + apply String.eqb_eq in E; subst k0.
      destruct (String.eqb k' k) eqn:E'; [apply String.eqb_eq in E'; congruence|reflexivity].
    + destruct (String.eqb k' k0); [reflexivity|exact IH].
Qed.

Lemma lookup_assoc_remove_other {X : Type} k k' (l : list (string * X)) :
  k <> k' -> dict_lookup k' (assoc_remove k l) = dict_lookup k' l.
Proof.
  intros Hne; induction l as [|[k0 v0] r IH]; cbn; [reflexivity|].
  destruct (String.eqb k k0) eqn:E.
  - apply String.eqb_eq in E; subst k0.
    destruct (String.eqb k' k) eqn:E'; [apply String.eqb_eq in E'; congruence|exact IH].
  - cbn; destruct (String.eqb k' k0); [reflexivity|exact IH].
Qed.

Lemma assoc_remove_absent {X : Type} k (l : list (string * X)) :
  dict_lookup k l = None -> assoc_remove k l = l.
Proof.
  induction l as [|[k0 v0] r IH]; cbn; [reflexivity|].
  destruct (String.eqb k k0); [discriminate|intro H; rewrite (IH H); reflexivity].
Qed.

Lemma MemoryCache_get_lookup_eq (c c' : mem_store) k now :
  dict_lookup k c = dict_lookup k c' ->
  fst (MemoryCache_get k now c) = fst (MemoryCache_get k now c').
Proof.
  intros H; unfold MemoryCache_get; rewrite H.
  destruct (dict_lookup k c') as [[v e]|]; [destruct (e <? now)|]; reflexivity.
Qed.

(** A [try]/[except Exception] whose handler returns normally re-raises
    only what is no [Exception]. *)
Lemma try_except_quiet {S X : Type} (m : M S X) (x : X) s e s' :
  try_except m (fun _ => ret x) s = (Raise e, s') -> is_Exception (exc_cls e) = false.
Proof.
  unfold try_except; destruct (m s) as [[a|e0] s0]; [discriminate|].
  destruct (is_Exception (exc_cls e0)) eqn:E; [discriminate|].
  intros H; injection H as <- _; exact E.
Qed.

(** [MemoryCache]: a value set with [ttl] at [now] is read back unchanged
    up to and including [now + ttl], and is a miss that removes the key
    from then on. *)
Theorem memory_cache_set_get (c : mem_store) (k v : string) (ttl now now' : Z) :
  (now' <= now + ttl ->
     MemoryCache_get k now' (snd (MemoryCache_set k v ttl now c))
       = (Ok (Some v), snd (MemoryCache_set k v ttl now c))) /\
  (now + ttl < now' ->
     MemoryCache_get k now' (snd (MemoryCache_set k v ttl now c))
       = (Ok None, assoc_remove k (snd (MemoryCache_set k v ttl now c))) /\
     dict_lookup k (assoc_remove k (snd (MemoryCache_set k v ttl now c))) = None).
Proof.
  cbn [MemoryCache_set snd]; unfold MemoryCache_get; rewrite lookup_assoc_set.
  split; intros Hle.
  - replace (now + ttl <? now') with false by (symmetry; apply Z.ltb_ge; lia); reflexivity.
  - replace (now + ttl <? now') with true by (symmetry; apply Z.ltb_lt; lia).
    split; [reflexivity|apply lookup_assoc_remove].
Qed.

Lemma memory_cache_set_get_witness :
  MemoryCache_get "k" 10 (snd (MemoryCache_set "k" "v" 10 0 []))
    = (Ok (Some "v"), snd (MemoryCache_set "k" "v" 10 0 [])) /\
  MemoryCache_get "k" 11 (snd (MemoryCache_set "k" "v" 10 0 []))
    = (Ok None, assoc_remove "k" (snd (MemoryCache_set "k" "v" 10 0 []))).
Proof.
  split.
  - exact (proj1 (memory_cache_set_get [] "k" "v" 10 0 10) ltac:(lia)).
  - exact (proj1 (proj2 (memory_cache_set_get [] "k" "v" 10 0 11) ltac:(lia))).
Defined.

(** [MemoryCache]: setting or deleting a key does not change what [get]
    answers for any other key. *)
Theorem memory_cache_other_keys (c : mem_store) (k k' v : string) (ttl t now : Z) :
  k <> k' ->
  fst (MemoryCache_get k' now (snd (MemoryCache_set k v ttl t c))) = fst (MemoryCache_get k' now c) /\
  fst (MemoryCache_get k' now (snd (MemoryCache_delete k c))) = fst (MemoryCache_get k' now c).
Proof.
  intros Hne; split; apply MemoryCache_get_lookup_eq; cbn [snd MemoryCache_set MemoryCache_delete].
  - apply lookup_assoc_set_other; exact Hne.
  - apply lookup_assoc_remove_other; exact Hne.
Qed.

Lemma memory_cache_other_keys_witness :
  "a" <> "b" /\
  fst (MemoryCache_get "b" 5 (snd (MemoryCache_set "a" "v" 10 0 [("b", ("w", 9))])))
    = fst (MemoryCache_get "b" 5 [("b", ("w", 9))]).
Proof.
  split; [discriminate|].
  exact (proj1 (memory_cache_other_keys [("b", ("w", 9))] "a" "b" "v" 10 0 5
                  ltac:(discriminate))).
Defined.

(** [MemoryCache]: after [delete(k)] a [get(k)] misses, and deleting a
    key that is not stored changes nothing and raises nothing; after
    [clear()] every [get] misses. *)
Theorem memory_cache_delete_clear (c : mem_store) (k : string) (now : Z) :
  MemoryCache_get k now (snd (MemoryCache_delete k c))
    = (Ok None, snd (MemoryCache_delete k c)) /\
  (dict_lookup k c = None -> MemoryCache_delete k c = (Ok tt, c)) /\
  (forall k', MemoryCache_get k' now (snd (MemoryCache_clear c)) = (Ok None, [])).
Proof.
  split; [|split].
  - cbn [snd MemoryCache_delete]; unfold MemoryCache_get; rewrite lookup_assoc_remove; reflexivity.
  - intros H; unfold MemoryCache_delete; rewrite (assoc_remove_absent k c H); reflexivity.
  - intros k'; reflexivity.
Qed.

Lemma memory_cache_delete_clear_witness :
  dict_lookup "k" [("j", ("v", 3))] = None /\
  MemoryCache_delete "k" [("j", ("v", 3))] = (Ok tt, [("j", ("v", 3))]).
Proof.
  split; [reflexivity|].
  exact (proj1 (proj2 (memory_cache_delete_clear [("j", ("v", 3))] "k" 0)) ltac:(reflexivity)).
Defined.

(** [RedisCache] swallows every [Exception] of the client and of the
    decoding: what its operations raise is never an [Exception]; a missing
    value and an empty byte string both read as a miss. *)
Theorem redis_cache_contains_errors {R : Type} (rc : redis_client R)
    (decode_utf8 : list Z -> result string) :
  (forall key c e c', RedisCache_get rc decode_utf8 key c = (Raise e, c') ->
     is_Exception (exc_cls e) = false) /\
  (forall key v ttl c e c', RedisCache_set rc key v ttl c = (Raise e, c') ->
     is_Exception (exc_cls e) = false) /\
  (forall key c e c', RedisCache_delete rc key c = (Raise e, c') ->
     is_Exception (exc_cls e) = false) /\
  (forall key c c', (rc_get rc key c = (Ok None, c') \/ rc_get rc key c = (Ok (Some []), c')) ->
     RedisCache_get rc decode_utf8 key c = (Ok None, c')).
Proof.
  split; [intros key c e c'; apply try_except_quiet|].
  split; [intros key v ttl c e c'; apply try_except_quiet|].
  split; [intros key c e c'; apply try_except_quiet|].
  intros key c c' [H|H]; unfold RedisCache_get, try_except, bind; rewrite H; reflexivity.
Qed.

Lemma redis_cache_contains_errors_witness :
  RedisCache_get
    (mk_redis_client unit (fun _ c => (Ok (Some []), c)) (fun _ _ _ c => (Ok tt, c))
       (fun _ c => (Ok tt, c)))
    (fun _ => Ok "") "k" tt = (Ok None, tt).
Proof.
  exact (proj2 (proj2 (proj2 (redis_cache_contains_errors
    (mk_redis_client unit (fun _ c => (Ok (Some []), c)) (fun _ _ _ c => (Ok tt, c))
       (fun _ c => (Ok tt, c)))
    (fun _ => Ok "")))) "k" tt tt (or_intror eq_refl)).
Defined.

Lemma redis_never_raises {R : Type} (rc : redis_client R) (decode_utf8 : list Z -> result string) :
  (forall k c e c', rc_get rc k c = (Raise e, c') -> is_Exception (exc_cls e) = true) ->
  (forall k t v c e c', rc_setex rc k t v c = (Raise e, c') -> is_Exception (exc_cls e) = true) ->
  (forall k c e c', rc_delete rc k c = (Raise e, c') -> is_Exception (exc_cls e) = true) ->
  (forall b e, decode_utf8 b = Raise e -> is_Exception (exc_cls e) = true) ->
  @backend_raises_Exceptions R (RedisCache rc decode_utf8).
Proof.
  intros Hg Hs Hd Hdec; split; [|split]; cbn.
  - intros k n c e c' H.
    unfold RedisCache_get, try_except, bind in H.
    destruct (rc_get rc k c) as [[v|e0] c0] eqn:Eg.
    + destruct v as [[|b0 bs]|]; [discriminate|..|discriminate].
      cbn in H; destruct (decode_utf8 (b0 :: bs)) as [s|e1] eqn:Ed; [discriminate|].
      rewrite (Hdec _ _ Ed) in H; discriminate.
    + rewrite (Hg _ _ _ _ Eg) in H; discriminate.
  - intros k v t n c e c' H.
    unfold RedisCache_set, try_except in H.
    destruct (rc_setex rc k t v c) as [[u|e0] c0] eqn:Es; [discriminate|].
    rewrite (Hs _ _ _ _ _ _ Es) in H; discriminate.
  - intros k c e c' H.
    unfold RedisCache_delete, try_except in H.
    destruct (rc_delete rc k c) as [[u|e0] c0] eqn:Es; [discriminate|].
    rewrite (Hd _ _ _ _ Es) in H; discriminate.
Qed.

(** [PaymobAuth] over a [RedisCache] whose client and decoding raise only
    [Exception]s, with a transport that raises only [Exception]s:
    [invalidate_token] never raises, and any exception
    [get_token] raises is an [AuthenticationError] raised after its one
    token request, with the request's failure text. *)
Theorem auth_over_redis {R : Type} (rc : redis_client R) (decode_utf8 : list Z -> result string) :
  (forall k c e c', rc_get rc k c = (Raise e, c') -> is_Exception (exc_cls e) = true) ->
  (forall k t v c e c', rc_setex rc k t v c = (Raise e, c') -> is_Exception (exc_cls e) = true) ->
  (forall k c e c', rc_delete rc k c = (Raise e, c') -> is_Exception (exc_cls e) = true) ->
  (forall b e, decode_utf8 b = Raise e -> is_Exception (exc_cls e) = true) ->
  forall (st : state R) (force : bool) (now : Z) (resp : transport_outcome),
  transport_raises_Exception resp ->
  fst (@invalidate_token R (RedisCache rc decode_utf8) st) = Ok tt /\
  (forall e, fst (@get_token R (RedisCache rc decode_utf8) force now resp st) = Raise e ->
     exc_cls e = AuthenticationError /\ request_failure_text resp (exc_text e) /\
     transport_log (snd (@get_token R (RedisCache rc decode_utf8) force now resp st))
       = app (transport_log st) [token_request st]).
Proof.
  intros Hg Hs Hd Hdec st force now resp HT.
  pose proof (redis_never_raises rc decode_utf8 Hg Hs Hd Hdec) as HB.
  split.
  - unfold invalidate_token, try_except, bind, on_backend, log, modify.
    destruct (cache_delete CACHE_KEY (cache_backend st)) as [[u|e] b'] eqn:Ed; [reflexivity|].
    rewrite ((proj2 (proj2 HB)) _ _ _ _ Ed); reflexivity.
  - intros e He.
    destruct (get_token_outcome HB force now resp st HT) as [(t & Ht & _)|(Hcall & Hres)].
    + rewrite Ht in He; discriminate.
    + rewrite He in Hres; destruct Hres as [? ?]; auto.
Qed.

Lemma auth_over_redis_witness :
  fst (@invalidate_token unit
         (RedisCache
            (mk_redis_client unit
               (fun _ c => (Raise (mk_exc (OtherException "ConnectionError") ""), c))
               (fun _ _ _ c => (Raise (mk_exc (OtherException "ConnectionError") ""), c))
               (fun _ c => (Raise (mk_exc (OtherException "ConnectionError") ""), c)))
            (fun _ => Ok ""))
         (PaymobAuth_init config0 tt default_token_ttl)) = Ok tt.
Proof.
  refine (proj1 (auth_over_redis
    (mk_redis_client unit
       (fun _ c => (Raise (mk_exc (OtherException "ConnectionError") ""), c))
       (fun _ _ _ c => (Raise (mk_exc (OtherException "ConnectionError") ""), c))
       (fun _ c => (Raise (mk_exc (OtherException "ConnectionError") ""), c)))
    (fun _ => Ok "") _ _ _ _ (PaymobAuth_init config0 tt default_token_ttl) false 0
    (TResponse None) I)).
  - intros k c e c' H; injection H as <- _; reflexivity.
  - intros k t v c e c' H; injection H as <- _; reflexivity.
  - intros k c e c' H; injection H as <- _; reflexivity.
  - intros b e H; discriminate H.
Defined.

End CacheFacts.

(* ================================================================== *)
(** * More properties of the token manager *)

Module AuthMoreFacts.
Import Auth AuthObs AuthFacts.

Section AnyBackend.
Context {B : Type} `{CB : CacheBackend B}.

Lemma refetch_transport_log now resp (st : state B) :
  transport_log (snd (refetch now resp st)) = app (transport_log st) [token_request st].
Proof.
  destruct (track_fields now st) as (Hc & Hb & Htt & Htl).
  rewrite refetch_run.
  set (st2 := add_log (Info, "Requesting new authentication token")
                (snd (_track_refresh_attempts now st))).
  assert (Hc2 : config st2 = config st) by exact Hc.
  assert (Htl2 : transport_log st2 = transport_log st) by exact Htl.
  clearbody st2.
  rewrite request_token_run; cbv zeta.
  destruct resp as [e|[t|]].
  - destruct (is_Exception (exc_cls e));
      cbn; rewrite Htl2; unfold token_request; rewrite Hc2; reflexivity.
  - destruct (String.eqb t "").
    + cbn; rewrite Htl2; unfold token_request; rewrite Hc2; reflexivity.
    + rewrite cache_token_run.
      destruct (cache_set CACHE_KEY t (token_ttl _) now (cache_backend _)) as [[u|e] b'];
        [|destruct (is_Exception (exc_cls e))];
        cbn; rewrite Htl2; unfold token_request; rewrite Hc2; reflexivity.
  - cbn; rewrite Htl2; unfold token_request; rewrite Hc2; reflexivity.
Qed.

Lemma refetch_failure now resp (st : state B) :
  ~ request_succeeds resp ->
  (exists e, fst (refetch now resp st) = Raise e) /\
  cache_backend (snd (refetch now resp st)) = cache_backend st.
Proof.
  intros Hns.
  destruct (track_fields now st) as (Hc & Hb & Htt & Htl).
  rewrite refetch_run.
  set (st2 := add_log (Info, "Requesting new authentication token")
                (snd (_track_refresh_attempts now st))).
  assert (Hb2 : cache_backend st2 = cache_backend st) by exact Hb.
  clearbody st2.
  rewrite request_token_run; cbv zeta.
  destruct resp as [e|[t|]].
  - destruct (is_Exception (exc_cls e)); cbn; split; eauto.
  - destruct (String.eqb t "") eqn:Et.
    + cbn; split; eauto.
    + exfalso; apply Hns; exists t; split; [reflexivity|apply String.eqb_neq; exact Et].
  - cbn; split; eauto.
Qed.

End AnyBackend.

Lemma set_backend_same {B : Type} (st : state B) : set_backend (cache_backend st) st = st.
Proof. destruct st; reflexivity. Qed.

Lemma memory_refetch_success (st : state mem_store) now t :
  t <> "" ->
  fst (refetch now (TResponse (Some t)) st) = Ok t /\
  cache_backend (snd (refetch now (TResponse (Some t)) st))
    = assoc_set CACHE_KEY (t, now + token_ttl st) (cache_backend st).
Proof.
  intros Ht.
  destruct (track_fields now st) as (Hc & Hb & Htt & Htl).
  rewrite refetch_run.
  set (st2 := add_log (Info, "Requesting new authentication token")
                (snd (_track_refresh_attempts now st))).
  assert (Hb2 : cache_backend st2 = cache_backend st) by exact Hb.
  assert (Htt2 : token_ttl st2 = token_ttl st) by exact Htt.
  clearbody st2.
  rewrite request_token_run; cbv zeta.
  apply String.eqb_neq in Ht; rewrite Ht.
  rewrite cache_token_run; cbn.
  rewrite Htt2, Hb2; split; reflexivity.
Qed.

Lemma memory_hit (st : state mem_store) now exp t resp :
  dict_lookup CACHE_KEY (cache_backend st) = Some (t, exp) -> now <= exp -> t <> "" ->
  get_token false now resp st = (Ok t, add_log (Debug, "Using cached authentication token") st).
Proof.
  intros Hl Hle Ht.
  rewrite get_token_unforced, get_cached_token_run.
  cbn [cache_get MemoryCache]; unfold MemoryCache_get; rewrite Hl.
  replace (exp <? now) with false by (symmetry; apply Z.ltb_ge; lia).
  rewrite set_backend_same.
  apply String.eqb_neq in Ht; rewrite Ht; reflexivity.
Qed.

(** [get_token()] over a [MemoryCache] holding an unexpired token: a
    non-empty token is returned with only a debug log entry (no token
    request, refresh counter and cache untouched); an empty cached token
    is ignored and exactly one token request is sent. *)
Theorem get_token_valid_cache_hit (st : state mem_store) (now exp : Z) (t : string)
    (resp : transport_outcome) :
  dict_lookup CACHE_KEY (cache_backend st) = Some (t, exp) -> now <= exp ->
  (t <> "" ->
     get_token false now resp st
       = (Ok t, add_log (Debug, "Using cached authentication token") st)) /\
  (t = "" ->
     transport_log (snd (get_token false now resp st))
       = app (transport_log st) [token_request st]).
Proof.
  intros Hl Hle; split.
  - apply memory_hit with exp; assumption.
  - intros ->.
    rewrite get_token_unforced, get_cached_token_run.
    cbn [cache_get MemoryCache]; unfold MemoryCache_get; rewrite Hl.
    replace (exp <? now) with false by (symmetry; apply Z.ltb_ge; lia).
    rewrite set_backend_same; cbn [String.eqb].
    apply refetch_transport_log.
Qed.

Lemma get_token_valid_cache_hit_witness :
  dict_lookup CACHE_KEY
    (cache_backend (PaymobAuth_init config0 [(CACHE_KEY, ("tok", 500))] default_token_ttl))
    = Some ("tok", 500) /\
  get_token false 100 (TResponse None)
    (PaymobAuth_init config0 [(CACHE_KEY, ("tok", 500))] default_token_ttl)
    = (Ok "tok", add_log (Debug, "Using cached authentication token")
                   (PaymobAuth_init config0 [(CACHE_KEY, ("tok", 500))] default_token_ttl)).
Proof.
  split; [reflexivity|].
  exact (proj1 (get_token_valid_cache_hit
                  (PaymobAuth_init config0 [(CACHE_KEY, ("tok", 500))] default_token_ttl)
                  100 500 "tok" (TResponse None) ltac:(reflexivity) ltac:(lia))
               ltac:(discriminate)).
Defined.

(** [get_token(force_refresh=True)] sends exactly one token request,
    whatever the backend holds; when that request yields no token it
    raises and leaves the cache backend as it was. *)
Theorem get_token_forced_request {B : Type} `{CB : CacheBackend B} (st : state B)
    (now : Z) (resp : transport_outcome) :
  transport_log (snd (get_token true now resp st)) = app (transport_log st) [token_request st] /\
  (~ request_succeeds resp ->
     (exists e, fst (get_token true now resp st) = Raise e) /\
     cache_backend (snd (get_token true now resp st)) = cache_backend st).
Proof.
  rewrite get_token_forced; split.
  - apply refetch_transport_log.
  - apply refetch_failure.
Qed.

Lemma get_token_forced_request_witness :
  (exists e, fst (get_token true 0 (TResponse None)
                    (PaymobAuth_init config0 [(CACHE_KEY, ("tok", 500))] default_token_ttl))
             = Raise e) /\
  cache_backend (snd (get_token true 0 (TResponse None)
                        (PaymobAuth_init config0 [(CACHE_KEY, ("tok", 500))] default_token_ttl)))
    = [(CACHE_KEY, ("tok", 500))].
Proof.
  apply (proj2 (get_token_forced_request
                  (PaymobAuth_init config0 [(CACHE_KEY, ("tok", 500))] default_token_ttl)
                  0 (TResponse None))).
  intros (t & Ht & _); discriminate Ht.
Defined.

(** Over a [MemoryCache], a token obtained by a forced refresh at [now]
    is stored with expiry [now + token_ttl] and served by every later
    [get_token()] up to that expiry, without another token request. *)
Theorem get_token_reuses_fresh_token (st : state mem_store) (now now' : Z) (t : string)
    (resp' : transport_outcome) :
  t <> "" -> now' <= now + token_ttl st ->
  fst (get_token true now (TResponse (Some t)) st) = Ok t /\
  dict_lookup CACHE_KEY (cache_backend (snd (get_token true now (TResponse (Some t)) st)))
    = Some (t, now + token_ttl st) /\
  get_token false now' resp' (snd (get_token true now (TResponse (Some t)) st))
    = (Ok t, add_log (Debug, "Using cached authentication token")
               (snd (get_token true now (TResponse (Some t)) st))).
Proof.
  intros Ht Hle; rewrite get_token_forced.
  destruct (memory_refetch_success st now t Ht) as [Hr Hb].
  assert (Hl : dict_lookup CACHE_KEY (cache_backend (snd (refetch now (TResponse (Some t)) st)))
               = Some (t, now + token_ttl st))
    by (rewrite Hb; apply lookup_assoc_set).
  split; [exact Hr|split; [exact Hl|]].
  apply memory_hit with (now + token_ttl st); assumption.
Qed.

Lemma get_token_reuses_fresh_token_witness :
  "tok" <> "" /\ 100 <= 0 + token_ttl (PaymobAuth_init config0 ([] : mem_store) default_token_ttl) /\
  fst (get_token true 0 (TResponse (Some "tok")) (PaymobAuth_init config0 ([] : mem_store) default_token_ttl))
    = Ok "tok".
Proof.
  assert (Ht : "tok" <> "") by discriminate.
  assert (Hle : 100 <= 0 + token_ttl (PaymobAuth_init config0 ([] : mem_store) default_token_ttl))
    by (vm_compute; discriminate).
  exact (conj Ht (conj Hle (proj1 (get_token_reuses_fresh_token
    (PaymobAuth_init config0 ([] : mem_store) default_token_ttl) 0 100 "tok" (TResponse None) Ht Hle)))).
Defined.

(** Over a [MemoryCache], [invalidate_token()] never raises and removes
    the cached token, so the next [get_token()] sends one token request. *)
Theorem invalidate_then_request (st : state mem_store) (now : Z) (resp : transport_outcome) :
  fst (invalidate_token st) = Ok tt /\
  dict_lookup CACHE_KEY (cache_backend (snd (invalidate_token st))) = None /\
  transport_log (snd (get_token false now resp (snd (invalidate_token st))))
    = app (transport_log st) [token_request st].
Proof.
  assert (Hinv : invalidate_token st
    = (Ok tt, add_log (Info, "Authentication token invalidated")
                (set_backend (assoc_remove CACHE_KEY (cache_backend st)) st)))
    by reflexivity.
  rewrite Hinv; cbn [fst snd].
  assert (Hl : dict_lookup CACHE_KEY (assoc_remove CACHE_KEY (cache_backend st)) = None)
    by apply lookup_assoc_remove.
  split; [reflexivity|split; [exact Hl|]].
  rewrite get_token_unforced, get_cached_token_run.
  cbn [cache_get MemoryCache cache_backend add_log set_backend]; unfold MemoryCache_get; rewrite Hl.
  rewrite refetch_transport_log; reflexivity.
Qed.

End AuthMoreFacts.

(* ================================================================== *)
(** * More properties of the webhook authenticator *)

Module WebhookMoreFacts.
Import Webhook WebhookObs WebhookFacts.

(** The canonicalization result, by the callback type. *)
Lemma concatenate_cases d :
  fst (run (_concatenate d)) =
    match _get_type_of_callback d with
    | PStr ty =>
        if String.eqb (str_lower ty) "subscription" then
          match fst (run (_concatenate_subscription_callback d)) with
          | Ok c => Ok (c, "subscription") | Raise e => Raise e end
        else if String.eqb (str_lower ty) "transaction" then
          match fst (run (concatenate_fields transaction_fields d)) with
          | Ok c => Ok (c, "transaction") | Raise e => Raise e end
        else if String.eqb (str_lower ty) "token" then
          match fst (run (concatenate_fields token_fields d)) with
          | Ok c => Ok (c, "token") | Raise e => Raise e end
        else Ok ("", "undefined")
    | _ => Raise (mk_exc AttributeError "object has no attribute 'lower'")
    end.
Proof.
  unfold run.
  destruct (_get_type_of_callback d) eqn:Ety;
    try (unfold _concatenate, py_lower, bind; rewrite Ety; reflexivity).
  rewrite (concatenate_dispatch d s [] Ety).
  destruct (String.eqb (str_lower s) "subscription") eqn:E1.
  { apply String.eqb_eq in E1; rewrite E1; unfold bind.
    destruct (_concatenate_subscription_callback d []) as [[c|e] s']; reflexivity. }
  destruct (String.eqb (str_lower s) "transaction") eqn:E2.
  { apply String.eqb_eq in E2; rewrite E2; unfold bind.
    destruct (concatenate_fields transaction_fields d []) as [[c|e] s']; reflexivity. }
  destruct (String.eqb (str_lower s) "token") eqn:E3.
  { apply String.eqb_eq in E3; rewrite E3; unfold bind.
    destruct (concatenate_fields token_fields d []) as [[c|e] s']; reflexivity. }
  destruct (String.eqb (str_lower s) "undefined") eqn:E4;
    [apply String.eqb_eq in E4; rewrite E4|]; reflexivity.
Qed.

Lemma transaction_fields_two_part : two_part_paths transaction_fields.
Proof.
  intros f Hin; cbn [transaction_fields In] in Hin.
  repeat (destruct Hin as [<-|Hin];
          [intros Hd; first [discriminate Hd | do 2 eexists; reflexivity]|]).
  destruct Hin.
Qed.

Lemma token_fields_two_part : two_part_paths token_fields.
Proof.
  intros f Hin; cbn [token_fields In] in Hin.
  repeat (destruct Hin as [<-|Hin]; [intros Hd; discriminate Hd|]).
  destruct Hin.
Qed.

Lemma field_value_raise d f s e s' :
  (has_dot f = true -> exists a b, split_dot f = [a; b]) ->
  field_value d f s = (Raise e, s') -> lookup_error e.
Proof.
  intros Hf; unfold lookup_error, field_value, bind, py_subscript, py_get, ret, raise.
  destruct (has_dot f).
  - destruct (Hf eq_refl) as (a & b & ->).
    destruct (dict_lookup "obj" d) as [o|]; [|intros H; inversion H; cbn; auto].
    destruct o; try (intros H; inversion H; cbn; auto; fail).
    destruct (dict_get kv a (PDict [])); intros H; inversion H; cbn; auto.
  - destruct (dict_lookup "obj" d) as [o|]; [|intros H; inversion H; cbn; auto].
    destruct o; intros H; inversion H; cbn; auto.
Qed.

Lemma render_fields_raise d fs :
  two_part_paths fs ->
  forall s e s', render_fields d fs s = (Raise e, s') -> lookup_error e.
Proof.
  induction fs as [|f fs IH]; intros Hfs s e s'; cbn [render_fields].
  - unfold ret; discriminate.
  - unfold bind.
    destruct (field_value d f s) as [[v|e0] s0] eqn:Ev.
    + destruct (render_fields d fs s0) as [[vs|e1] s1] eqn:Er; [unfold ret; discriminate|].
      intros H; injection H as <- <-.
      apply (IH (fun g Hg => Hfs g (or_intror Hg)) s0 e1 s1 Er).
    + intros H; injection H as <- <-.
      apply (field_value_raise d f s e0 s0 (Hfs f (or_introl eq_refl)) Ev).
Qed.

Lemma concatenate_fields_raise d fs e :
  two_part_paths fs -> fst (run (concatenate_fields fs d)) = Raise e -> lookup_error e.
Proof.
  intros Hfs; unfold run, concatenate_fields, bind.
  destruct (render_fields d fs []) as [[vs|e0] s0] eqn:Er; cbn; [discriminate|].
  intros H; injection H as <-; exact (render_fields_raise d fs Hfs [] e0 s0 Er).
Qed.

Lemma subscription_raise d e :
  fst (run (_concatenate_subscription_callback d)) = Raise e ->
  exc_cls e = ValidationError \/ exc_cls e = AttributeError.
Proof.
  unfold run, _concatenate_subscription_callback, bind, py_get, ret, raise.
  destruct (dict_get d "subscription_data" (PDict [])); cbn;
    try (intros H; injection H as <-; cbn; auto; fail).
  destruct (negb _ || negb _); cbn; [intros H; injection H as <-; cbn; auto|discriminate].
Qed.

Lemma concatenate_raise d e :
  fst (run (_concatenate d)) = Raise e ->
  exc_cls e = KeyError \/ exc_cls e = AttributeError \/ exc_cls e = ValidationError.
Proof.
  rewrite concatenate_cases.
  destruct (_get_type_of_callback d) as [| | |ty| |];
    try (intros H; injection H as <-; cbn; auto; fail).
  destruct (String.eqb (str_lower ty) "subscription").
  { destruct (fst (run (_concatenate_subscription_callback d))) eqn:E; [discriminate|].
    intros H; injection H as <-; destruct (subscription_raise d _ E); auto. }
  destruct (String.eqb (str_lower ty) "transaction").
  { destruct (fst (run (concatenate_fields transaction_fields d))) eqn:E; [discriminate|].
    intros H; injection H as <-.
    destruct (concatenate_fields_raise d _ _ transaction_fields_two_part E); auto. }
  destruct (String.eqb (str_lower ty) "token").
  { destruct (fst (run (concatenate_fields token_fields d))) eqn:E; [discriminate|].
    intros H; injection H as <-.
    destruct (concatenate_fields_raise d _ _ token_fields_two_part E); auto. }
  discriminate.
Qed.

Lemma concatenate_type d c t :
  fst (run (_concatenate d)) = Ok (c, t) ->
  t = "subscription" \/ t = "transaction" \/ t = "token" \/ (t = "undefined" /\ c = "").
Proof.
  rewrite concatenate_cases.
  destruct (_get_type_of_callback d) as [| | |ty| |]; try discriminate.
  destruct (String.eqb (str_lower ty) "subscription").
  { destruct (fst (run (_concatenate_subscription_callback d))); [|discriminate].
    intros H; injection H as _ <-; auto. }
  destruct (String.eqb (str_lower ty) "transaction").
  { destruct (fst (run (concatenate_fields transaction_fields d))); [|discriminate].
    intros H; injection H as _ <-; auto. }
  destruct (String.eqb (str_lower ty) "token").
  { destruct (fst (run (concatenate_fields token_fields d))); [|discriminate].
    intros H; injection H as _ <-; auto. }
  intros H; injection H as <- <-; auto 6.
Qed.

Lemma bind_pointwise {A X : Type} (m1 m2 : W A) (k1 k2 : A -> W X) :
  (forall s, m1 s = m2 s) -> (forall a s, k1 a s = k2 a s) ->
  forall s, bind m1 k1 s = bind m2 k2 s.
Proof.
  intros Hm Hk s; unfold bind; rewrite Hm.
  destruct (m2 s) as [[a|e] s']; [apply Hk|reflexivity].
Qed.

(** Canonicalization reads the payload only through its type and its
    ["obj"], ["trigger_type"] and ["subscription_data"] entries. *)
Lemma concatenate_agree d1 d2 :
  (forall s, py_lower (_get_type_of_callback d1) s = py_lower (_get_type_of_callback d2) s) ->
  dict_lookup "obj" d1 = dict_lookup "obj" d2 ->
  dict_lookup "trigger_type" d1 = dict_lookup "trigger_type" d2 ->
  dict_lookup "subscription_data" d1 = dict_lookup "subscription_data" d2 ->
  forall s, _concatenate d1 s = _concatenate d2 s.
Proof.
  intros Hlow Hobj Htr Hsd.
  assert (Hfv : forall f s, field_value d1 f s = field_value d2 f s)
    by (intros f s; unfold field_value, py_subscript; rewrite Hobj; reflexivity).
  assert (Hrf : forall fs s, render_fields d1 fs s = render_fields d2 fs s).
  { induction fs as [|f fs IH]; intros s; [reflexivity|]; cbn [render_fields].
    apply bind_pointwise; [apply Hfv|intros v s'].
    apply bind_pointwise; [apply IH|reflexivity]. }
  assert (Hcf : forall fs s, concatenate_fields fs d1 s = concatenate_fields fs d2 s)
    by (intros fs; unfold concatenate_fields; apply bind_pointwise; [apply Hrf|reflexivity]).
  assert (Hsub : forall s, _concatenate_subscription_callback d1 s
                           = _concatenate_subscription_callback d2 s)
    by (intros s; unfold _concatenate_subscription_callback, dict_get; rewrite Htr, Hsd;
        reflexivity).
  unfold _concatenate; apply bind_pointwise; [exact Hlow|intros ct s'].
  destruct (String.eqb ct "subscription");
    [apply bind_pointwise; [apply Hsub|reflexivity]|].
  destruct (String.eqb ct "transaction");
    [apply bind_pointwise; [apply Hcf|reflexivity]|].
  destruct (String.eqb ct "token");
    [apply bind_pointwise; [apply Hcf|reflexivity]|].
  reflexivity.
Qed.

Lemma str_lower_empty s : str_lower s = "" -> s = "".
Proof. destruct s; [reflexivity|discriminate]. Qed.

(** Whatever [authorize_hmac] returns as a type is "subscription",
    "transaction" or "token". *)
Theorem authorize_result_type (sk : string) (d : pydict) (q : option pydict) (ip t : string) :
  fst (run (authorize_hmac_with sk d q ip)) = Ok (Some t) ->
  t = "subscription" \/ t = "transaction" \/ t = "token".
Proof.
  rewrite authorize_run.
  destruct (negb (py_truthy (presented_hmac d q))); [discriminate|].
  destruct (String.eqb sk ""); [discriminate|].
  destruct (fst (run (_concatenate d))) as [[c t']|e] eqn:Ec; [|discriminate].
  destruct (String.eqb c "" || String.eqb t' "undefined") eqn:Eu; [discriminate|].
  destruct (py_ne_str _ _); cbn [fst]; [discriminate|].
  intros H; injection H as <-.
  apply Bool.orb_false_iff in Eu; destruct Eu as [_ Eu]; apply String.eqb_neq in Eu.
  destruct (concatenate_type d c t' Ec) as [?|[?|[?|[? _]]]]; auto; contradiction.
Qed.

Lemma authorize_result_type_witness :
  fst (run (authorize_hmac_with "k" sub_good None "10.0.0.1")) = Ok (Some "subscription") /\
  ("subscription" = "subscription" \/ "subscription" = "transaction" \/
   "subscription" = "token").
Proof.
  assert (H : fst (run (authorize_hmac_with "k" sub_good None "10.0.0.1"))
              = Ok (Some "subscription")) by (vm_compute; reflexivity).
  exact (conj H (authorize_result_type "k" sub_good None "10.0.0.1" "subscription" H)).
Defined.

(** What [authorize_hmac] raises is an [APIException] (only when no
    secret key is configured), a [KeyError] or an [AttributeError] (from
    the payload lookups) or a [ValidationError] (a subscription callback
    without trigger type or id); keys and canonical strings are byte
    strings here (see [hmac_new_hexdigest]). *)
Theorem authorize_raises_only (sk : string) (d : pydict) (q : option pydict) (ip : string)
    (e : pyexc) :
  fst (run (authorize_hmac_with sk d q ip)) = Raise e ->
  (exc_cls e = APIException /\ sk = "") \/
  exc_cls e = KeyError \/ exc_cls e = AttributeError \/ exc_cls e = ValidationError.
Proof.
  rewrite authorize_run.
  destruct (negb (py_truthy (presented_hmac d q))); [discriminate|].
  destruct (String.eqb sk "") eqn:Esk.
  { intros H; injection H as <-; left; split; [reflexivity|apply String.eqb_eq; exact Esk]. }
  destruct (fst (run (_concatenate d))) as [[c t']|e'] eqn:Ec.
  - destruct (String.eqb c "" || String.eqb t' "undefined"); [discriminate|].
    destruct (py_ne_str _ _); discriminate.
  - intros H; injection H as <-; right; exact (concatenate_raise d e' Ec).
Qed.

Lemma authorize_raises_only_witness :
  fst (run (authorize_hmac_with "k" [("hmac", PStr "x"); ("type", PStr "transaction")]
              None "10.0.0.1")) = Raise (mk_exc KeyError "obj").
Proof.
  assert (H : fst (run (authorize_hmac_with "k" [("hmac", PStr "x"); ("type", PStr "transaction")]
                          None "10.0.0.1")) = Raise (mk_exc KeyError "obj"))
    by (vm_compute; reflexivity).
  destruct (authorize_raises_only "k" _ None "10.0.0.1" _ H) as [[_ Hk]|_];
    [discriminate Hk|exact H].
Defined.

(** The effects of [authorize_hmac]: without a truthy presented
    signature it neither reads the secret key nor computes a digest;
    otherwise it reads the key once and computes at most one digest, with
    that key, of the non-empty canonical string of a known callback type. *)
Theorem authorize_effects (sk : string) (d : pydict) (q : option pydict) (ip : string) :
  (py_truthy (presented_hmac d q) = false -> snd (run (authorize_hmac_with sk d q ip)) = []) /\
  (py_truthy (presented_hmac d q) = true ->
     snd (run (authorize_hmac_with sk d q ip)) = [EvReadSecretKey] \/
     exists c t, c <> "" /\ t <> "undefined" /\ fst (run (_concatenate d)) = Ok (c, t) /\
       snd (run (authorize_hmac_with sk d q ip)) = [EvReadSecretKey; EvDigest sk c]).
Proof.
  rewrite authorize_run; split; intros Hp; rewrite Hp; cbn [negb]; [reflexivity|].
  destruct (String.eqb sk ""); [left; reflexivity|].
  destruct (fst (run (_concatenate d))) as [[c t]|e] eqn:Ec; [|left; reflexivity].
  destruct (String.eqb c "" || String.eqb t "undefined") eqn:Eu; [left; reflexivity|].
  apply Bool.orb_false_iff in Eu; destruct Eu as [E1 E2].
  apply String.eqb_neq in E1; apply String.eqb_neq in E2.
  right; exists c, t; auto.
Qed.

Lemma authorize_effects_witness :
  py_truthy (presented_hmac sub_good None) = true /\
  (snd (run (authorize_hmac_with "k" sub_good None "10.0.0.1")) = [EvReadSecretKey] \/
   exists c t, c <> "" /\ t <> "undefined" /\ fst (run (_concatenate sub_good)) = Ok (c, t) /\
     snd (run (authorize_hmac_with "k" sub_good None "10.0.0.1")) = [EvReadSecretKey; EvDigest "k" c]).
Proof.
  assert (H : py_truthy (presented_hmac sub_good None) = true) by (vm_compute; reflexivity).
  exact (conj H (proj2 (authorize_effects "k" sub_good None "10.0.0.1") H)).
Defined.

(** A signed payload whose type is an ASCII string that is none of
    "subscription", "transaction" and "token" in any letter case is
    answered [None] after reading the key, without a digest, whatever its
    other content. *)
Theorem authorize_unknown_type (sk : string) (d : pydict) (q : option pydict) (ip ty : string) :
  sk <> "" -> py_truthy (presented_hmac d q) = true ->
  _get_type_of_callback d = PStr ty -> ascii_only ty = true ->
  str_lower ty <> "subscription" -> str_lower ty <> "transaction" -> str_lower ty <> "token" ->
  run (authorize_hmac_with sk d q ip) = (Ok None, [EvReadSecretKey]).
Proof.
  intros Hsk Hp Hty _ H1 H2 H3.
  rewrite authorize_run, Hp, concatenate_cases, Hty; cbn [negb].
  rewrite (proj2 (String.eqb_neq _ _) Hsk), (proj2 (String.eqb_neq _ _) H1),
    (proj2 (String.eqb_neq _ _) H2), (proj2 (String.eqb_neq _ _) H3).
  reflexivity.
Qed.

Lemma authorize_unknown_type_witness :
  run (authorize_hmac_with "k" [("hmac", PStr "x"); ("type", PStr "Refund")] None "10.0.0.1")
    = (Ok None, [EvReadSecretKey]).
Proof.
  apply (authorize_unknown_type "k" _ None "10.0.0.1" "Refund");
    first [discriminate | reflexivity | vm_compute; discriminate].
Defined.

(** The ["type"] of a payload is compared case-insensitively: two
    payloads that differ only in the ASCII letter case of a leading ASCII
    string ["type"] entry get the same answer and the same effects. *)
Theorem authorize_type_case_insensitive (sk : string) (t1 t2 : string) (r : pydict)
    (q : option pydict) (ip : string) :
  ascii_only t1 = true -> ascii_only t2 = true ->
  str_lower t1 = str_lower t2 ->
  run (authorize_hmac_with sk (("type", PStr t1) :: r) q ip)
    = run (authorize_hmac_with sk (("type", PStr t2) :: r) q ip).
Proof.
  intros _ _ Hl.
  assert (Hp : presented_hmac (("type", PStr t1) :: r) q
               = presented_hmac (("type", PStr t2) :: r) q) by reflexivity.
  assert (Hlow : forall s, py_lower (_get_type_of_callback (("type", PStr t1) :: r)) s
                         = py_lower (_get_type_of_callback (("type", PStr t2) :: r)) s).
  { change (_get_type_of_callback (("type", PStr t1) :: r))
      with (if negb (String.eqb t1 "") then PStr t1
            else if py_truthy (dict_get r "subscription_data" PNone) then PStr "subscription"
            else PStr "undefined").
    change (_get_type_of_callback (("type", PStr t2) :: r))
      with (if negb (String.eqb t2 "") then PStr t2
            else if py_truthy (dict_get r "subscription_data" PNone) then PStr "subscription"
            else PStr "undefined").
    destruct (String.eqb t1 "") eqn:E1; destruct (String.eqb t2 "") eqn:E2; cbn [negb];
      intros s.
    - reflexivity.
    - apply String.eqb_eq in E1; subst t1.
      apply String.eqb_neq in E2; exfalso; apply E2, str_lower_empty; rewrite <- Hl; reflexivity.
    - apply String.eqb_eq in E2; subst t2.
      apply String.eqb_neq in E1; exfalso; apply E1, str_lower_empty; rewrite Hl; reflexivity.
    - unfold py_lower; rewrite Hl; reflexivity. }
  assert (Hc : fst (run (_concatenate (("type", PStr t1) :: r)))
               = fst (run (_concatenate (("type", PStr t2) :: r)))).
  { unfold run; rewrite (concatenate_agree _ _ Hlow eq_refl eq_refl eq_refl []); reflexivity. }
  rewrite !authorize_run, Hp, Hc; reflexivity.
Qed.

Lemma authorize_type_case_insensitive_witness :
  str_lower "TRANSACTION" = str_lower "transaction" /\
  run (authorize_hmac_with "k" [("type", PStr "TRANSACTION"); ("hmac", PStr "x")] None "10.0.0.1")
    = run (authorize_hmac_with "k" [("type", PStr "transaction"); ("hmac", PStr "x")] None
             "10.0.0.1").
Proof.
  assert (H : str_lower "TRANSACTION" = str_lower "transaction") by reflexivity.
  exact (conj H (authorize_type_case_insensitive "k" "TRANSACTION" "transaction"
                   [("hmac", PStr "x")] None "10.0.0.1" eq_refl eq_refl H)).
Defined.

(** A truthy ["hmac"] in the payload body is the presented signature:
    the query parameters are then not consulted; and an empty query dict
    counts as no query parameters. *)
Theorem authorize_body_hmac_first (sk : string) (d : pydict) (q1 q2 : option pydict)
    (ip : string) :
  (py_truthy (dict_get d "hmac" PNone) = true ->
     run (authorize_hmac_with sk d q1 ip) = run (authorize_hmac_with sk d q2 ip)) /\
  run (authorize_hmac_with sk d (Some []) ip) = run (authorize_hmac_with sk d None ip).
Proof.
  split; [|reflexivity].
  intros Hb.
  assert (Hp : presented_hmac d q1 = presented_hmac d q2)
    by (unfold presented_hmac; rewrite Hb; reflexivity).
  rewrite !authorize_run, Hp; reflexivity.
Qed.

Lemma authorize_body_hmac_first_witness :
  run (authorize_hmac_with "k" [("hmac", PStr "x")] (Some [("hmac", PStr "y")]) "10.0.0.1")
    = run (authorize_hmac_with "k" [("hmac", PStr "x")] None "10.0.0.1").
Proof.
  exact (proj1 (authorize_body_hmac_first "k" [("hmac", PStr "x")]
                  (Some [("hmac", PStr "y")]) None "10.0.0.1") eq_refl).
Defined.

End WebhookMoreFacts.

(* ================================================================== *)
(** * Properties of the configuration and of the transaction client *)

Module ConfigClientFacts.
Import Auth Config Client.

Lemma prefix_app p s t : String.prefix p s = true -> String.prefix p (s ++ t) = true.
Proof.
  revert p; induction s as [|b s IH]; intros p.
  - destruct p; [destruct t; reflexivity|discriminate].
  - destruct p as [|a p]; cbn; [reflexivity|].
    destruct (Ascii.ascii_dec a b); [apply IH|discriminate].
Qed.

Lemma list_ascii_of_string_app s t :
  list_ascii_of_string (s ++ t) = app (list_ascii_of_string s) (list_ascii_of_string t).
Proof. induction s as [|a s IH]; cbn; [reflexivity|rewrite IH; reflexivity]. Qed.

Lemma drop_slashes_head l :
  match drop_slashes l with [] => True | c :: _ => c <> "/"%char end.
Proof.
  induction l as [|c r IH]; cbn; [exact I|].
  destruct (Ascii.eqb c "/") eqn:E; [exact IH|].
  intros ->; discriminate E.
Qed.

Lemma rstrip_slash_no_trailing s pre : rstrip_slash s <> pre ++ "/".
Proof.
  unfold rstrip_slash; intros H.
  apply (f_equal list_ascii_of_string) in H.
  rewrite list_ascii_of_string_of_list_ascii, list_ascii_of_string_app in H.
  apply (f_equal (@rev ascii)) in H.
  rewrite rev_involutive, rev_app_distr in H; cbn in H.
  pose proof (drop_slashes_head (rev (list_ascii_of_string s))) as Hh.
  rewrite H in Hh; apply Hh; reflexivity.
Qed.

(** A [PaymobConfig] that is constructed has its four required keys set
    (not [None], not empty) and a [base_url] that is the given one with its
    trailing slashes stripped, starts with "https://" and does not end with
    "/"; the token URL built from it passes the connection pool's HTTPS
    check and goes to the session.  Construction raises nothing but
    [ConfigurationError]. *)
Theorem config_constructed (api_key public_key secret_key integration_id : option string)
    (base_url : string) (hmac_secret_key : option string) :
  (forall c, PaymobConfig_new api_key public_key secret_key integration_id base_url
               hmac_secret_key = Ok c ->
     opt_truthy (cfg_api_key c) = true /\ opt_truthy (cfg_secret_key c) = true /\
     opt_truthy (cfg_public_key c) = true /\ opt_truthy (cfg_integration_id c) = true /\
     cfg_base_url c = rstrip_slash base_url /\
     String.prefix "https://" (cfg_base_url c) = true /\
     (forall pre, cfg_base_url c <> pre ++ "/") /\
     (forall session headers json cs,
        request session "POST" (cfg_base_url c ++ "/api/auth/tokens") headers json cs
        = (session "POST" (cfg_base_url c ++ "/api/auth/tokens") headers json,
           mk_cstate (auth cs)
             (app (session_log cs) [("POST", cfg_base_url c ++ "/api/auth/tokens", headers, json)])))) /\
  (forall e, PaymobConfig_new api_key public_key secret_key integration_id base_url
               hmac_secret_key = Raise e -> exc_cls e = ConfigurationError).
Proof.
  unfold PaymobConfig_new, validate; cbv zeta; cbn [cfg_api_key cfg_secret_key cfg_public_key
    cfg_integration_id cfg_base_url filter snd].
  destruct (opt_truthy api_key) eqn:Ea, (opt_truthy secret_key) eqn:Es,
    (opt_truthy public_key) eqn:Ep, (opt_truthy integration_id) eqn:Ei;
    cbn [filter negb snd map fst];
    try (split; [intros c H; discriminate H|intros e H; injection H as <-; reflexivity]).
  destruct (String.prefix "https://" (rstrip_slash base_url)) eqn:Eh;
    [|split; [intros c H; discriminate H|intros e H; injection H as <-; reflexivity]].
  split; [|intros e H; discriminate H].
  intros c H; injection H as <-; cbn [cfg_api_key cfg_secret_key cfg_public_key
    cfg_integration_id cfg_base_url].
  repeat split; auto.
  - intros pre; apply rstrip_slash_no_trailing.
  - intros session headers json cs; unfold request.
    rewrite (prefix_app _ _ _ Eh); reflexivity.
Qed.

Lemma config_constructed_witness :
  cfg_base_url (mk_paymob_config (Some "a") (Some "p") (Some "s") (Some "1")
                  "https://accept.paymob.com" None)
    = rstrip_slash "https://accept.paymob.com//" /\
  String.prefix "https://"
    (cfg_base_url (mk_paymob_config (Some "a") (Some "p") (Some "s") (Some "1")
                     "https://accept.paymob.com" None)) = true.
Proof.
  destruct (proj1 (config_constructed (Some "a") (Some "p") (Some "s") (Some "1")
                     "https://accept.paymob.com//" None)
              (mk_paymob_config (Some "a") (Some "p") (Some "s") (Some "1")
                 "https://accept.paymob.com" None) ltac:(reflexivity))
    as (_ & _ & _ & _ & H1 & H2 & _).
  exact (conj H1 H2).
Defined.

(** [get_transaction_by_id] and [get_transaction_by_ref] never reach the
    session: after [get_token] (forced for [excuted=True]) they hand the
    pool a relative path, which fails its HTTPS check, so whatever the
    session would answer they raise [get_token]'s exception or a
    [ValueError], make no request and never retry. *)
Theorem transaction_lookups_never_sent
    (session : string -> string -> list (string * string) -> option pydict -> result response)
    (transaction_id : Z) (transaction_ref : string) (excuted : bool) (now : Z)
    (resp resp_retry : transport_outcome) (cs : cstate) :
  get_transaction_by_id session transaction_id excuted now resp resp_retry cs
    = (match fst (get_token excuted now resp (auth cs)) with
       | Ok _ => Raise (mk_exc ValueError HTTPS_ONLY)
       | Raise e => Raise e
       end,
       mk_cstate (snd (get_token excuted now resp (auth cs))) (session_log cs)) /\
  get_transaction_by_ref session transaction_ref excuted now resp resp_retry cs
    = (match fst (get_token excuted now resp (auth cs)) with
       | Ok _ => Raise (mk_exc ValueError HTTPS_ONLY)
       | Raise e => Raise e
       end,
       mk_cstate (snd (get_token excuted now resp (auth cs))) (session_log cs)).
Proof.
  assert (Hid : forall x, String.prefix "https://" ("/api/acceptance/transactions/" ++ x) = false)
    by (intros; reflexivity).
  assert (Href : String.prefix "https://" "/api/ecommerce/orders/transaction_inquiry" = false)
    by reflexivity.
  split.
  - unfold get_transaction_by_id, get_transaction_by_id_call, bind, lift_auth.
    destruct excuted; cbn [negb];
      destruct (get_token _ now resp (auth cs)) as [[tok|e] a']; cbn [fst snd];
      try reflexivity;
      unfold pool_get, request; rewrite Hid; reflexivity.
  - unfold get_transaction_by_ref, get_transaction_by_ref_call, bind, lift_auth.
    destruct excuted; cbn [negb];
      destruct (get_token _ now resp (auth cs)) as [[tok|e] a']; cbn [fst snd];
      try reflexivity;
      unfold pool_post, request; rewrite Href; reflexivity.
Qed.

End ConfigClientFacts.
